(** * go-sqlite-lite: the callback marshaling layer (sqlite3/callback.go)

    A shallow embedding of the argument and return converters that bridge
    SQLite's dynamically typed values and the statically typed Go
    functions registered as SQL functions.

    - [reflect] models the fragment of Go's [reflect] package the file
      uses: kinds, types (with defined, i.e. named, types), boxed values,
      [ConvertibleTo] and [Convert].
    - [C] models the engine side: a [sqlite3_value] as seen through the
      accessors [sqlite3_value_type/int64/double/bytes/blob/text], the
      cgo copies [GoBytes], [GoString], [GoStringN], and the result slot
      of a [sqlite3_context] as the log of result primitives invoked.
    - Go functions that can panic return an [outcome]; the Go pair
      [(reflect.Value, error)] is kept as a pair. *)

From Stdlib Require Import ZArith List String Bool Lia.
From Stdlib Require Import Strings.Byte.
From Stdlib Require Import Floats.SpecFloat.
Import ListNotations.

Local Open Scope string_scope.
Local Open Scope list_scope.
Local Open Scope Z_scope.

(** ** Outcomes of a Go call: a normal return or a run-time panic. *)

Inductive outcome (A : Type) : Type :=
| Return (a : A)
| Panic (why : string).

Arguments Return {A} a.
Arguments Panic {A} why.

(** ** The platform: Go's [int], [uint] and [uintptr] are 32 or 64 bits
    wide. *)

Inductive Arch : Type := Arch32 | Arch64.

Definition intSize (a : Arch) : Z :=
  match a with Arch32 => 32 | Arch64 => 64 end.

(** ** Package reflect *)

Module reflect.

Inductive Kind : Type :=
| Invalid | Bool
| Int | Int8 | Int16 | Int32 | Int64
| Uint | Uint8 | Uint16 | Uint32 | Uint64 | Uintptr
| Float32 | Float64 | Complex64 | Complex128
| Array | Chan | Func | Interface | Map | Pointer | Slice | String
| Struct | UnsafePointer.

(** The predeclared integer and float types. *)
Inductive intType : Type :=
| int | int8 | int16 | int32 | int64
| uint | uint8 | uint16 | uint32 | uint64 | uintptr.

Inductive floatType : Type := float32 | float64.

(** Go types.  [TNamed n u] is a defined type [type n u]: it has the
    kind of [u] and is a different type from [u]. *)
Inductive rtype : Type :=
| TBool
| TInt (i : intType)
| TFloat (f : floatType)
| TComplex (wide : bool)
| TString
| TUnsafePointer
| TNamed (name : string) (u : rtype)
| TSlice (elem : rtype)
| TArray (n : nat) (elem : rtype)
| TPtr (elem : rtype)
| TChan (elem : rtype)
| TMap (key elem : rtype)
| TFunc (nin nout : nat)
| TStruct (fields : list string)
| TInterface (methods : list string).

Definition intKind (i : intType) : Kind :=
  match i with
  | int => Int | int8 => Int8 | int16 => Int16 | int32 => Int32
  | int64 => Int64
  | uint => Uint | uint8 => Uint8 | uint16 => Uint16 | uint32 => Uint32
  | uint64 => Uint64 | uintptr => Uintptr
  end.

Definition floatKind (f : floatType) : Kind :=
  match f with float32 => Float32 | float64 => Float64 end.

(** [typ.Kind()] *)
Fixpoint Type_Kind (t : rtype) : Kind :=
  match t with
  | TBool => Bool
  | TInt i => intKind i
  | TFloat f => floatKind f
  | TComplex w => if w then Complex128 else Complex64
  | TString => String
  | TUnsafePointer => UnsafePointer
  | TNamed _ u => Type_Kind u
  | TSlice _ => Slice
  | TArray _ _ => Array
  | TPtr _ => Pointer
  | TChan _ => Chan
  | TMap _ _ => Map
  | TFunc _ _ => Func
  | TStruct _ => Struct
  | TInterface _ => Interface
  end.

(** [typ.Elem()]: panics unless the kind is Array, Chan, Map, Pointer
    or Slice. *)
Fixpoint Type_Elem (t : rtype) : outcome rtype :=
  match t with
  | TSlice e | TArray _ e | TPtr e | TChan e | TMap _ e => Return e
  | TNamed _ u => Type_Elem u
  | _ => Panic "reflect: Elem of invalid type"
  end.

(** [typ.NumMethod()] of an interface type: the size of its method
    set.  (For other kinds Go counts the exported methods of the
    type; the package calls it on interface kinds only.) *)
Fixpoint Type_NumMethod (t : rtype) : nat :=
  match t with
  | TInterface ms => List.length ms
  | TNamed _ u => Type_NumMethod u
  | _ => 0%nat
  end.

(** A type seen through its definitions: the name given by the
    outermost definition, if any. *)
Definition typeName (t : rtype) : option string :=
  match t with TNamed n _ => Some n | _ => None end.

Definition withName (n : option string) (t : rtype) : rtype :=
  match n with Some s => TNamed s t | None => t end.

Fixpoint asIntType (t : rtype) : option intType :=
  match t with
  | TInt i => Some i
  | TNamed _ u => asIntType u
  | _ => None
  end.

Fixpoint asFloatType (t : rtype) : option floatType :=
  match t with
  | TFloat f => Some f
  | TNamed _ u => asFloatType u
  | _ => None
  end.

(** *** Fixed-width integers *)

Definition isSigned (i : intType) : bool :=
  match i with
  | int | int8 | int16 | int32 | int64 => true
  | _ => false
  end.

Definition bitSize (a : Arch) (i : intType) : Z :=
  match i with
  | int | uint | uintptr => intSize a
  | int8 | uint8 => 8
  | int16 | uint16 => 16
  | int32 | uint32 => 32
  | int64 | uint64 => 64
  end.

Definition minInt (a : Arch) (i : intType) : Z :=
  if isSigned i then - 2 ^ (bitSize a i - 1) else 0.

Definition maxInt (a : Arch) (i : intType) : Z :=
  if isSigned i then 2 ^ (bitSize a i - 1) - 1 else 2 ^ bitSize a i - 1.

Definition inRange (a : Arch) (i : intType) (z : Z) : bool :=
  (minInt a i <=? z) && (z <=? maxInt a i).

(** Conversion between integer types keeps the low-order bits: an
    unsigned destination takes the value modulo [2^w], a signed one
    the two's complement reading of those [w] bits. *)
Definition wrap (a : Arch) (i : intType) (z : Z) : Z :=
  let w := bitSize a i in
  if isSigned i
  then (z + 2 ^ (w - 1)) mod 2 ^ w - 2 ^ (w - 1)
  else z mod 2 ^ w.

(** *** Floats: IEEE 754 values without NaN payloads. *)

Definition float := spec_float.

Definition roundTo (f : floatType) (x : float) : float :=
  match f with
  | float64 => x
  | float32 =>
      match x with
      | S754_finite s m e => binary_round 24 128 s m e
      | _ => x
      end
  end.

(** *** Boxed values

    A [Value] carries its dynamic type.  [n] is the name of the
    defined type the value has, [None] for the predeclared type
    itself; a byte slice also records whether its element type is a
    defined type, and whether the slice is nil ([None]).  [VOpaque t]
    stands for a value whose contents the package never inspects: one
    of a type [t] of another kind (struct, pointer, map, channel,
    function, array, complex, a slice of anything but bytes). *)
Inductive Value : Type :=
| VInvalid
| VBool (n : option string) (b : bool)
| VInt (n : option string) (i : intType) (z : Z)
| VFloat (n : option string) (f : floatType) (x : float)
| VString (n : option string) (s : list byte)
| VBytes (n en : option string) (s : option (list byte))
| VOpaque (t : rtype).

(** [v.Type()]; it panics on the zero Value. *)
Definition Value_Type (v : Value) : outcome rtype :=
  match v with
  | VInvalid => Panic "reflect: call of reflect.Value.Type on zero Value"
  | VBool n _ => Return (withName n TBool)
  | VInt n i _ => Return (withName n (TInt i))
  | VFloat n f _ => Return (withName n (TFloat f))
  | VString n _ => Return (withName n TString)
  | VBytes n en _ => Return (withName n (TSlice (withName en (TInt uint8))))
  | VOpaque t => Return t
  end.

Definition isNumeric (t : rtype) : bool :=
  match asIntType t, asFloatType t with
  | None, None => false
  | _, _ => true
  end.

(** [src.ConvertibleTo(dst)] on the rows of reflect's conversion table
    modelled here: an integer kind converts to every integer and float
    kind, a float kind to every float kind.  Left out are float to
    integer, whose result outside the target range Go leaves to the
    platform, and the rows for strings, slices, interfaces and
    identical underlying types; the package requests none of them. *)
Definition Type_ConvertibleTo (src dst : rtype) : bool :=
  match asIntType src, asFloatType src with
  | Some _, _ => isNumeric dst
  | None, Some _ =>
      match asFloatType dst with Some _ => true | None => false end
  | None, None => false
  end.

(** [v.Convert(t)] on the same rows: integer to integer wraps; integer
    to float goes through float64, rounding to nearest even; float to
    float rounds to nearest even.  It panics where [ConvertibleTo] is
    false. *)
Definition Value_Convert (a : Arch) (v : Value) (t : rtype)
  : outcome Value :=
  match v with
  | VInt _ _ z =>
      match asIntType t, asFloatType t with
      | Some i, _ => Return (VInt (typeName t) i (wrap a i z))
      | None, Some f =>
          Return (VFloat (typeName t) f
                    (roundTo f (binary_normalize 53 1024 z 0 false)))
      | None, None => Panic "reflect.Value.Convert: not convertible"
      end
  | VFloat _ _ x =>
      match asFloatType t with
      | Some f => Return (VFloat (typeName t) f (roundTo f x))
      | None => Panic "reflect.Value.Convert: not convertible"
      end
  | _ => Panic "reflect.Value.Convert: not convertible"
  end.

End reflect.

(** Sequencing of calls that may panic. *)

Definition bind {A B : Type} (o : outcome A) (k : A -> outcome B)
  : outcome B :=
  match o with
  | Return a => k a
  | Panic why => Panic why
  end.

Notation "x <- e ;; k" := (bind e (fun x => k))
  (at level 61, e at next level, right associativity).

(** ** Boxing and type assertions *)

(** [reflect.ValueOf(x)] for the static types the file boxes. *)
Definition ValueOf_int64 (z : Z) : reflect.Value :=
  reflect.VInt None reflect.int64 z.

Definition ValueOf_bool (b : bool) : reflect.Value :=
  reflect.VBool None b.

Definition ValueOf_float64 (x : reflect.float) : reflect.Value :=
  reflect.VFloat None reflect.float64 x.

Definition ValueOf_bytes (s : option (list byte)) : reflect.Value :=
  reflect.VBytes None None s.

Definition ValueOf_string (s : list byte) : reflect.Value :=
  reflect.VString None s.

(** [v.Interface()]: an interface value holding [v] under its dynamic
    type.  [None] is the nil interface, which a valid Value of a
    non-interface kind never yields. *)
Definition Value_Interface (v : reflect.Value)
  : outcome (option reflect.Value) :=
  match v with
  | reflect.VInvalid =>
      Panic "reflect: call of reflect.Value.Interface on zero Value"
  | _ => Return (Some v)
  end.

(** The type assertions [i.(int64)], [i.(bool)], [i.([]byte)] and
    [i.(string)]: they succeed when the dynamic type is exactly the
    asserted type and panic otherwise. *)
Definition assert_int64 (i : option reflect.Value) : outcome Z :=
  match i with
  | Some (reflect.VInt None reflect.int64 z) => Return z
  | _ => Panic "interface conversion: interface {} is not int64"
  end.

Definition assert_bool (i : option reflect.Value) : outcome bool :=
  match i with
  | Some (reflect.VBool None b) => Return b
  | _ => Panic "interface conversion: interface {} is not bool"
  end.

Definition assert_bytes (i : option reflect.Value)
  : outcome (option (list byte)) :=
  match i with
  | Some (reflect.VBytes None None s) => Return s
  | _ => Panic "interface conversion: interface {} is not []uint8"
  end.

Definition assert_string (i : option reflect.Value)
  : outcome (list byte) :=
  match i with
  | Some (reflect.VString None s) => Return s
  | _ => Panic "interface conversion: interface {} is not string"
  end.

(** [len] of a slice: a nil slice has length 0. *)
Definition len (s : option (list byte)) : Z :=
  match s with
  | Some l => Z.of_nat (List.length l)
  | None => 0
  end.

(** Reading of the 64 low-order bits as a signed integer: conversion
    to [int64] and to the C type [sqlite3_int64]. *)
Definition to_int64 (z : Z) : Z := reflect.wrap Arch64 reflect.int64 z.

(** ** Errors *)

Record Error : Type := mkError {
  err_rc : Z;
  err_format : string;
  err_args : list reflect.rtype
}.

(** The result code SQLITE_MISUSE of sqlite3.h. *)
Definition MISUSE : Z := 21.

(** Modelled from the spec: [pkgErr] is declared elsewhere in the
    package; an error carries "a single taxonomy tag (MISUSE) plus a
    human-readable message".  The message is kept as the format string
    and the types substituted for its [%s] verbs. *)
Definition pkgErr (rc : Z) (format : string) (args : list reflect.rtype)
  : Error :=
  mkError rc format args.

(** ** The engine, as seen through cgo *)

Module C.

(** A pointer into C memory, as the bytes readable from it onwards. *)
Definition ptr := list byte.

(** An engine value cell.  [vtype] is its fundamental datatype code;
    [ival] and [rval] are what the integer and float accessors return;
    [data] is its text or blob content, of which the engine reports the
    byte length. *)
Record sqlite3_value : Type := mkValue {
  vtype : Z;
  ival : Z;
  rval : reflect.float;
  data : list byte
}.

Definition sqlite3_value_type (v : sqlite3_value) : Z := vtype v.
Definition sqlite3_value_int64 (v : sqlite3_value) : Z := ival v.
Definition sqlite3_value_double (v : sqlite3_value) : reflect.float :=
  rval v.
Definition sqlite3_value_bytes (v : sqlite3_value) : Z :=
  Z.of_nat (List.length (data v)).
Definition sqlite3_value_blob (v : sqlite3_value) : ptr := data v.

(** The engine keeps a zero terminator after the text content. *)
Definition sqlite3_value_text (v : sqlite3_value) : ptr :=
  data v ++ [x00].

(** [C.GoBytes(p, n)]: a copy of the [n] bytes at [p]. *)
Definition GoBytes (p : ptr) (n : Z) : list byte :=
  firstn (Z.to_nat n) p.

(** [C.GoStringN(p, n)]: a string of the [n] bytes at [p]. *)
Definition GoStringN (p : ptr) (n : Z) : list byte :=
  firstn (Z.to_nat n) p.

(** [C.GoString(p)]: the bytes at [p] up to the first zero byte. *)
Fixpoint GoString (p : ptr) : list byte :=
  match p with
  | [] => []
  | b :: rest => if Byte.eqb b x00 then [] else b :: GoString rest
  end.

(** The result primitives.  A context is the log of the primitives
    invoked on it, oldest first. *)
Inductive result : Type :=
| result_int64 (z : Z)
| result_double (x : reflect.float)
| result_null
| result_blob (p : ptr) (n : Z)
| result_text (p : ptr)
| result_error (e : Error).

Definition sqlite3_context := list result.

Definition sqlite3_result_int64 (ctx : sqlite3_context) (z : Z) :=
  ctx ++ [result_int64 z].
Definition sqlite3_result_double (ctx : sqlite3_context)
  (x : reflect.float) :=
  ctx ++ [result_double x].
Definition sqlite3_result_null (ctx : sqlite3_context) :=
  ctx ++ [result_null].

(** [_sqlite3_result_blob]: SQLITE_TRANSIENT, the engine copies the
    [n] bytes before returning. *)
Definition _sqlite3_result_blob (ctx : sqlite3_context) (p : ptr) (n : Z) :=
  ctx ++ [result_blob p n].

(** [_sqlite3_result_text]: SQLITE_STATIC with length -1, the engine
    keeps the pointer and reads up to a zero byte. *)
Definition _sqlite3_result_text (ctx : sqlite3_context) (p : ptr) :=
  ctx ++ [result_text p].

Definition sqlite3_result_error (ctx : sqlite3_context) (e : Error) :=
  ctx ++ [result_error e].

End C.

(** The fundamental datatype codes of sqlite3.h, as the package's
    constants INTEGER, FLOAT, TEXT, BLOB and NULL. *)
Definition INTEGER : Z := 1.
Definition FLOAT : Z := 2.
Definition TEXT : Z := 3.
Definition BLOB : Z := 4.
Definition NULL : Z := 5.

(** Modelled from the spec: [cStr] is declared elsewhere in the package;
    it yields the pointer handed to the "no-copy" text primitive, here
    the bytes of the string. *)
Definition cStr (s : list byte) : C.ptr := s.

(** ** Argument converters *)

Definition argResult : Type := outcome (reflect.Value * option Error).

Definition callbackArgConverter : Type := C.sqlite3_value -> argResult.

Record callbackArgCast : Type := mkCast {
  f : callbackArgConverter;
  typ : reflect.rtype
}.

Definition callbackArgCast_Run (a : Arch) (c : callbackArgCast)
  (v : C.sqlite3_value) : argResult :=
  r <- f c v ;;
  match r with
  | (_, Some err) => Return (reflect.VInvalid, Some err)
  | (val, None) =>
      vt <- reflect.Value_Type val ;;
      if negb (reflect.Type_ConvertibleTo vt (typ c))
      then Return (reflect.VInvalid,
                   Some (pkgErr MISUSE "cannot convert %s to %s"
                           [vt; typ c]))
      else
        cv <- reflect.Value_Convert a val (typ c) ;;
        Return (cv, None)
  end.

Definition callbackArgInt64 (v : C.sqlite3_value) : argResult :=
  if negb (C.sqlite3_value_type v =? INTEGER)
  then Return (reflect.VInvalid,
               Some (pkgErr MISUSE "argument must be an INTEGER" []))
  else Return (ValueOf_int64 (to_int64 (C.sqlite3_value_int64 v)), None).

Definition callbackArgBool (v : C.sqlite3_value) : argResult :=
  if negb (C.sqlite3_value_type v =? INTEGER)
  then Return (reflect.VInvalid,
               Some (pkgErr MISUSE "argument must be an INTEGER" []))
  else
    let i := to_int64 (C.sqlite3_value_int64 v) in
    let val := if negb (i =? 0) then true else false in
    Return (ValueOf_bool val, None).

Definition callbackArgFloat64 (v : C.sqlite3_value) : argResult :=
  if negb (C.sqlite3_value_type v =? FLOAT)
  then Return (reflect.VInvalid,
               Some (pkgErr MISUSE "argument must be a FLOAT" []))
  else Return (ValueOf_float64 (C.sqlite3_value_double v), None).

Definition callbackArgBytes (v : C.sqlite3_value) : argResult :=
  let t := C.sqlite3_value_type v in
  if t =? BLOB then
    let l := C.sqlite3_value_bytes v in
    let p := C.sqlite3_value_blob v in
    Return (ValueOf_bytes (Some (C.GoBytes p l)), None)
  else if t =? TEXT then
    let l := C.sqlite3_value_bytes v in
    let c := C.sqlite3_value_text v in
    Return (ValueOf_bytes (Some (C.GoBytes c l)), None)
  else Return (reflect.VInvalid,
               Some (pkgErr MISUSE "argument must be BLOB or TEXT" [])).

Definition callbackArgString (v : C.sqlite3_value) : argResult :=
  let t := C.sqlite3_value_type v in
  if t =? BLOB then
    let l := C.sqlite3_value_bytes v in
    let p := C.sqlite3_value_blob v in
    Return (ValueOf_string (C.GoStringN p l), None)
  else if t =? TEXT then
    let c := C.sqlite3_value_text v in
    Return (ValueOf_string (C.GoString c), None)
  else Return (reflect.VInvalid,
               Some (pkgErr MISUSE "argument must be BLOB or TEXT" [])).

Definition callbackArgGeneric (v : C.sqlite3_value) : argResult :=
  let t := C.sqlite3_value_type v in
  if t =? INTEGER then callbackArgInt64 v
  else if t =? FLOAT then callbackArgFloat64 v
  else if t =? TEXT then callbackArgString v
  else if t =? BLOB then callbackArgBytes v
  else if t =? NULL then
    (* Interpret NULL as a nil byte slice. *)
    let ret : option (list byte) := None in
    Return (ValueOf_bytes ret, None)
  else Panic "unreachable".

(** [callbackArg]: the converter for a declared parameter type, or the
    registration error. *)
Definition callbackArg (a : Arch) (t : reflect.rtype)
  : outcome (option callbackArgConverter * option Error) :=
  match reflect.Type_Kind t with
  | reflect.Interface =>
      if negb (Nat.eqb (reflect.Type_NumMethod t) 0)
      then Return (None,
                   Some (pkgErr MISUSE
                           "the only supported interface type is interface{}"
                           []))
      else Return (Some callbackArgGeneric, None)
  | reflect.Slice =>
      e <- reflect.Type_Elem t ;;
      match reflect.Type_Kind e with
      | reflect.Uint8 => Return (Some callbackArgBytes, None)
      | _ => Return (None,
                     Some (pkgErr MISUSE
                             "the only supported slice type is []byte" []))
      end
  | reflect.String => Return (Some callbackArgString, None)
  | reflect.Bool => Return (Some callbackArgBool, None)
  | reflect.Int64 => Return (Some callbackArgInt64, None)
  | reflect.Int8 | reflect.Int16 | reflect.Int32
  | reflect.Uint8 | reflect.Uint16 | reflect.Uint32 | reflect.Uint64
  | reflect.Int | reflect.Uint =>
      let c := mkCast callbackArgInt64 t in
      Return (Some (callbackArgCast_Run a c), None)
  | reflect.Float64 => Return (Some callbackArgFloat64, None)
  | reflect.Float32 =>
      let c := mkCast callbackArgFloat64 t in
      Return (Some (callbackArgCast_Run a c), None)
  | _ => Return (None,
                 Some (pkgErr MISUSE "don't know how to convert to %s" [t]))
  end.

(** ** Return converters

    A return converter takes the context and the value the Go function
    returned; it yields the context after the call and the Go [error]
    ([None] is nil), unless it panics. *)

Definition retResult : Type := C.sqlite3_context * outcome (option Error).

Definition callbackRetConverter : Type :=
  C.sqlite3_context -> reflect.Value -> retResult.

Definition callbackRetInteger (a : Arch) (ctx : C.sqlite3_context)
  (v : reflect.Value) : retResult :=
  let switch : outcome (reflect.Value + Error) :=
    t <- reflect.Value_Type v ;;
    match reflect.Type_Kind t with
    | reflect.Int64 => Return (inl v)
    | reflect.Int8 | reflect.Int16 | reflect.Int32
    | reflect.Uint8 | reflect.Uint16 | reflect.Uint32 | reflect.Uint64
    | reflect.Int | reflect.Uint =>
        v' <- reflect.Value_Convert a v (reflect.TInt reflect.int64) ;;
        Return (inl v')
    | reflect.Bool =>
        i <- Value_Interface v ;;
        b <- assert_bool i ;;
        if b then Return (inl (ValueOf_int64 1))
        else Return (inl (ValueOf_int64 0))
    | _ => Return (inr (pkgErr MISUSE "cannot convert %s to INTEGER" [t]))
    end in
  match switch with
  | Panic why => (ctx, Panic why)
  | Return (inr err) => (ctx, Return (Some err))
  | Return (inl v) =>
      match (i <- Value_Interface v ;; assert_int64 i) with
      | Panic why => (ctx, Panic why)
      | Return z => (C.sqlite3_result_int64 ctx (to_int64 z), Return None)
      end
  end.

Definition assert_float64 (i : option reflect.Value)
  : outcome reflect.float :=
  match i with
  | Some (reflect.VFloat None reflect.float64 x) => Return x
  | _ => Panic "interface conversion: interface {} is not float64"
  end.

Definition callbackRetFloat (a : Arch) (ctx : C.sqlite3_context)
  (v : reflect.Value) : retResult :=
  let switch : outcome (reflect.Value + Error) :=
    t <- reflect.Value_Type v ;;
    match reflect.Type_Kind t with
    | reflect.Float64 => Return (inl v)
    | reflect.Float32 =>
        v' <- reflect.Value_Convert a v (reflect.TFloat reflect.float64) ;;
        Return (inl v')
    | _ => Return (inr (pkgErr MISUSE "cannot convert %s to FLOAT" [t]))
    end in
  match switch with
  | Panic why => (ctx, Panic why)
  | Return (inr err) => (ctx, Return (Some err))
  | Return (inl v) =>
      match (i <- Value_Interface v ;; assert_float64 i) with
      | Panic why => (ctx, Panic why)
      | Return x => (C.sqlite3_result_double ctx x, Return None)
      end
  end.

(** Whether [v.Type().Kind() != reflect.Slice ||
    v.Type().Elem().Kind() != reflect.Uint8], evaluated left to right. *)
Definition notByteSlice (t : reflect.rtype) : outcome bool :=
  match reflect.Type_Kind t with
  | reflect.Slice =>
      e <- reflect.Type_Elem t ;;
      match reflect.Type_Kind e with
      | reflect.Uint8 => Return false
      | _ => Return true
      end
  | _ => Return true
  end.

(** [&bs[0]]: indexing an empty or nil slice panics. *)
Definition addr0 (bs : option (list byte)) : outcome C.ptr :=
  match bs with
  | Some (b :: rest) => Return (b :: rest)
  | _ => Panic "index out of range [0] with length 0"
  end.

(** Conversion to the C type [int]. *)
Definition to_C_int (z : Z) : Z := reflect.wrap Arch64 reflect.int32 z.

Definition callbackRetBlob (ctx : C.sqlite3_context) (v : reflect.Value)
  : retResult :=
  match (t <- reflect.Value_Type v ;;
         nb <- notByteSlice t ;;
         Return (t, nb)) with
  | Panic why => (ctx, Panic why)
  | Return (t, true) =>
      (ctx, Return (Some (pkgErr MISUSE "cannot convert %s to BLOB" [t])))
  | Return (_, false) =>
      match (i <- Value_Interface v ;;
             match i with
             | None => Return (i, true)
             | Some _ =>
                 s <- assert_bytes i ;;
                 Return (i, len s =? 0)
             end) with
      | Panic why => (ctx, Panic why)
      | Return (_, true) => (C.sqlite3_result_null ctx, Return None)
      | Return (i, false) =>
          match (bs <- assert_bytes i ;;
                 p <- addr0 bs ;;
                 Return (p, to_C_int (len bs))) with
          | Panic why => (ctx, Panic why)
          | Return (p, n) => (C._sqlite3_result_blob ctx p n, Return None)
          end
      end
  end.

Definition callbackRetText (ctx : C.sqlite3_context) (v : reflect.Value)
  : retResult :=
  match (t <- reflect.Value_Type v ;;
         match reflect.Type_Kind t with
         | reflect.String =>
             i <- Value_Interface v ;;
             s <- assert_string i ;;
             Return (inl s)
         | _ => Return (inr (pkgErr MISUSE "cannot convert %s to TEXT" [t]))
         end) with
  | Panic why => (ctx, Panic why)
  | Return (inr err) => (ctx, Return (Some err))
  | Return (inl s) => (C._sqlite3_result_text ctx (cStr s), Return None)
  end.

(** [callbackRet]: the converter for a declared return type, or the
    registration error. *)
Definition callbackRet (a : Arch) (t : reflect.rtype)
  : outcome (option callbackRetConverter * option Error) :=
  match reflect.Type_Kind t with
  | reflect.Slice =>
      e <- reflect.Type_Elem t ;;
      match reflect.Type_Kind e with
      | reflect.Uint8 => Return (Some callbackRetBlob, None)
      | _ => Return (None,
                     Some (pkgErr MISUSE
                             "the only supported slice type is []byte" []))
      end
  | reflect.String => Return (Some callbackRetText, None)
  | reflect.Bool | reflect.Int8 | reflect.Int16 | reflect.Int32
  | reflect.Int64 | reflect.Uint8 | reflect.Uint16 | reflect.Uint32
  | reflect.Uint64 | reflect.Int | reflect.Uint =>
      Return (Some (callbackRetInteger a), None)
  | reflect.Float32 | reflect.Float64 =>
      Return (Some (callbackRetFloat a), None)
  | _ => Return (None,
                 Some (pkgErr MISUSE "don't know how to convert to %s" [t]))
  end.

(** [callbackError]: [err.Error()] is a nil dereference on a nil
    error. *)
Definition callbackError (ctx : C.sqlite3_context) (err : option Error)
  : C.sqlite3_context * outcome unit :=
  match err with
  | None => (ctx, Panic "invalid memory address or nil pointer dereference")
  | Some e => (C.sqlite3_result_error ctx e, Return tt)
  end.

(** ** The caller of a return converter, and the vocabulary of the
    statements *)

(** The 64-bit signed values, which is what an engine cell of type
    INTEGER holds. *)
Definition int64_range (z : Z) : Prop := - 2 ^ 63 <= z <= 2 ^ 63 - 1.

(** The integer types [callbackArg] wraps in a cast: every integer kind
    it accepts other than Int64. *)
Definition castType (i : reflect.intType) : bool :=
  match i with
  | reflect.int8 | reflect.int16 | reflect.int32
  | reflect.uint8 | reflect.uint16 | reflect.uint32 | reflect.uint64
  | reflect.int | reflect.uint => true
  | reflect.int64 | reflect.uintptr => false
  end.

(** The five fundamental datatypes an engine cell can have. *)
Definition engineKind (c : C.sqlite3_value) : Prop :=
  C.vtype c = INTEGER \/ C.vtype c = FLOAT \/ C.vtype c = TEXT \/
  C.vtype c = BLOB \/ C.vtype c = NULL.

(** What an argument conversion produced: a value and no error, or the
    zero Value and an error. *)
Definition oneOfValueOrError (r : reflect.Value * option Error) : Prop :=
  match r with
  | (reflect.VInvalid, Some _) => True
  | (reflect.VInvalid, None) => False
  | (_, None) => True
  | (_, Some _) => False
  end.

Definition isErrorResult (w : C.result) : bool :=
  match w with C.result_error _ => true | _ => false end.

(** Modelled from the spec: the caller of a return converter is
    declared elsewhere in the package; "return-conversion failures
    occur after the function has executed; they are likewise surfaced
    via the error-result primitive".  [surface conv] runs the return
    converter and hands its error, if any, to [callbackError]. *)
Definition surface (conv : callbackRetConverter) (ctx : C.sqlite3_context)
  (v : reflect.Value) : C.sqlite3_context * outcome unit :=
  match conv ctx v with
  | (ctx', Panic why) => (ctx', Panic why)
  | (ctx', Return None) => (ctx', Return tt)
  | (ctx', Return (Some err)) => callbackError ctx' (Some err)
  end.

(** The kinds for which [callbackArg] has no case, and those for which
    [callbackRet] has none: the latter has no case for interfaces
    either. *)
Definition argNoConversion (k : reflect.Kind) : bool :=
  match k with
  | reflect.Invalid | reflect.Uintptr | reflect.Complex64
  | reflect.Complex128 | reflect.Array | reflect.Chan | reflect.Func
  | reflect.Map | reflect.Pointer | reflect.Struct
  | reflect.UnsafePointer => true
  | _ => false
  end.

Definition retNoConversion (k : reflect.Kind) : bool :=
  match k with
  | reflect.Interface => true
  | _ => argNoConversion k
  end.

(** A builder's verdict at registration: a converter and no error, or
    no converter and a MISUSE error. *)
Definition builtOrRejected {A : Type}
  (r : outcome (option A * option Error)) : Prop :=
  (exists cv, r = Return (Some cv, None)) \/
  (exists e, r = Return (None, Some e) /\ err_rc e = MISUSE).

(** Case analysis on an innermost scrutinee of the goal. *)
Ltac case_scrutinee :=
  match goal with
  | |- context [match ?x with _ => _ end] =>
      lazymatch x with
      | context [match _ with _ => _ end] => fail
      | _ => destruct x
      end
  end.

(** What a return converter may do to the context: on success it has
    invoked exactly one result primitive, which is not the error
    primitive; on an error or a panic it has invoked none. *)
Definition retShape (conv : callbackRetConverter) : Prop :=
  forall ctx v,
    match conv ctx v with
    | (ctx', Return None) =>
        exists w, ctx' = ctx ++ [w] /\ isErrorResult w = false
    | (ctx', Return (Some _)) => ctx' = ctx
    | (ctx', Panic _) => ctx' = ctx
    end.

(** Which cell types a converter built for a declared kind takes: an
    interface parameter takes every cell, a byte slice or string
    parameter BLOB and TEXT, a bool or integer parameter INTEGER, a
    float parameter FLOAT. *)
Definition accepts (k : reflect.Kind) (ty : Z) : bool :=
  match k with
  | reflect.Interface => true
  | reflect.Slice | reflect.String => (ty =? BLOB) || (ty =? TEXT)
  | reflect.Bool | reflect.Int64
  | reflect.Int8 | reflect.Int16 | reflect.Int32
  | reflect.Uint8 | reflect.Uint16 | reflect.Uint32 | reflect.Uint64
  | reflect.Int | reflect.Uint => ty =? INTEGER
  | reflect.Float64 | reflect.Float32 => ty =? FLOAT
  | _ => false
  end.

(** The verdict of an argument conversion that was expected to succeed
    ([ok = true]) or to be refused: a value and no error, or the zero
    Value and a MISUSE error; never a panic. *)
Definition argVerdict (ok : bool) (r : argResult) : Prop :=
  match r with
  | Return (val, None) => ok = true /\ val <> reflect.VInvalid
  | Return (val, Some e) =>
      ok = false /\ val = reflect.VInvalid /\ err_rc e = MISUSE
  | Panic _ => False
  end.

(** The Go type of the value the generic converter produces, by the
    type code of the cell: int64, float64, string, and []byte for BLOB
    and NULL. *)
Definition genericType (ty : Z) : reflect.rtype :=
  if ty =? INTEGER then reflect.TInt reflect.int64
  else if ty =? FLOAT then reflect.TFloat reflect.float64
  else if ty =? TEXT then reflect.TString
  else reflect.TSlice (reflect.TInt reflect.uint8).

(** The kinds [callbackRetInteger] has a case for, and those
    [callbackRetFloat] has a case for. *)
Definition integerFamily (k : reflect.Kind) : bool :=
  match k with
  | reflect.Bool | reflect.Int | reflect.Int8 | reflect.Int16
  | reflect.Int32 | reflect.Int64 | reflect.Uint | reflect.Uint8
  | reflect.Uint16 | reflect.Uint32 | reflect.Uint64 => true
  | _ => false
  end.

Definition floatFamily (k : reflect.Kind) : bool :=
  match k with
  | reflect.Float32 | reflect.Float64 => true
  | _ => false
  end.

Arguments reflect.wrap : simpl never.
Arguments to_int64 : simpl never.
Arguments to_C_int : simpl never.

(** * Properties *)

(** ** Integer arithmetic *)

Lemma bitSize_pos (a : Arch) (i : reflect.intType) :
  0 < reflect.bitSize a i.
Proof. destruct a, i; simpl; lia. Qed.

Lemma pow2_split (w : Z) : 0 < w -> 2 ^ w = 2 * 2 ^ (w - 1).
Proof.
  intros Hw. replace w with (Z.succ (w - 1)) at 1 by lia.
  apply Z.pow_succ_r. lia.
Qed.

Lemma wrap_inRange (a : Arch) (i : reflect.intType) (z : Z) :
  reflect.inRange a i z = true -> reflect.wrap a i z = z.
Proof.
  unfold reflect.inRange, reflect.wrap, reflect.minInt, reflect.maxInt.
  intros H. apply andb_true_iff in H. destruct H as [Hlo Hhi].
  apply Z.leb_le in Hlo. apply Z.leb_le in Hhi.
  pose proof (bitSize_pos a i) as Hw.
  pose proof (pow2_split _ Hw) as Hs.
  assert (0 < 2 ^ (reflect.bitSize a i - 1)) by (apply Z.pow_pos_nonneg; lia).
  destruct (reflect.isSigned i).
  - rewrite Z.mod_small by lia. lia.
  - apply Z.mod_small. lia.
Qed.

Lemma int64_range_inRange (a : Arch) (z : Z) :
  int64_range z <-> reflect.inRange a reflect.int64 z = true.
Proof.
  unfold int64_range, reflect.inRange, reflect.minInt, reflect.maxInt.
  simpl reflect.isSigned. cbv iota.
  change (reflect.bitSize a reflect.int64 - 1) with 63.
  rewrite andb_true_iff, !Z.leb_le. tauto.
Qed.

Lemma to_int64_id (z : Z) : int64_range z -> to_int64 z = z.
Proof.
  intros H. apply wrap_inRange. now apply int64_range_inRange.
Qed.

(** A value of the upper half of uint64 reads as the negative int64
    with the same 64 bits. *)
Lemma to_int64_high (z : Z) :
  2 ^ 63 <= z < 2 ^ 64 -> to_int64 z = z - 2 ^ 64.
Proof.
  intros H. unfold to_int64, reflect.wrap. simpl reflect.isSigned.
  cbv iota zeta. change (reflect.bitSize Arch64 reflect.int64) with 64.
  change (64 - 1) with 63.
  replace (z + 2 ^ 63) with ((z - 2 ^ 63) + 1 * 2 ^ 64) by lia.
  rewrite Z.mod_add by lia. rewrite Z.mod_small by lia. lia.
Qed.

(** ** Types and kinds *)

Lemma asIntType_Kind (t : reflect.rtype) (i : reflect.intType) :
  reflect.asIntType t = Some i -> reflect.Type_Kind t = reflect.intKind i.
Proof.
  induction t; simpl; intros H; try discriminate; auto.
  now inversion H.
Qed.

Lemma asFloatType_Kind (t : reflect.rtype) (x : reflect.floatType) :
  reflect.asFloatType t = Some x ->
  reflect.Type_Kind t = reflect.floatKind x.
Proof.
  induction t; simpl; intros H; try discriminate; auto.
  now inversion H.
Qed.

Lemma Kind_Slice_Elem (t : reflect.rtype) :
  reflect.Type_Kind t = reflect.Slice ->
  exists e, reflect.Type_Elem t = Return e.
Proof.
  induction t; simpl; intros H; try discriminate; eauto.
  - destruct i; discriminate.
  - destruct f0; discriminate.
  - destruct wide; discriminate.
Qed.

(** ** The cast wrapper *)

Lemma callbackArgInt64_INTEGER (c : C.sqlite3_value) :
  C.vtype c = INTEGER ->
  callbackArgInt64 c = Return (ValueOf_int64 (to_int64 (C.ival c)), None).
Proof.
  intros H. unfold callbackArgInt64, C.sqlite3_value_type. now rewrite H.
Qed.

Lemma callbackArgInt64_other (c : C.sqlite3_value) :
  C.vtype c <> INTEGER ->
  callbackArgInt64 c =
  Return (reflect.VInvalid,
          Some (pkgErr MISUSE "argument must be an INTEGER" [])).
Proof.
  intros H. unfold callbackArgInt64, C.sqlite3_value_type.
  apply Z.eqb_neq in H. now rewrite H.
Qed.

Lemma cast_Run_int (a : Arch) (t : reflect.rtype) (i : reflect.intType)
  (c : C.sqlite3_value) :
  reflect.asIntType t = Some i ->
  C.vtype c = INTEGER ->
  callbackArgCast_Run a (mkCast callbackArgInt64 t) c =
  Return (reflect.VInt (reflect.typeName t) i
            (reflect.wrap a i (to_int64 (C.ival c))), None).
Proof.
  intros Ht Hc. unfold callbackArgCast_Run. simpl f. simpl typ.
  rewrite (callbackArgInt64_INTEGER c Hc). simpl.
  unfold reflect.Type_ConvertibleTo, reflect.isNumeric. simpl.
  now rewrite Ht.
Qed.

(** C1 (as amended).  For every declared integer type [t] of a kind
    other than Int64 that [callbackArg] accepts (Int8, Int16, Int32,
    Uint8, Uint16, Uint32, Uint64, Int, Uint), and every cell of type
    INTEGER holding the 64-bit value [v]: the converter [callbackArg]
    builds succeeds and yields [v] wrapped to the width of [t], which
    is [v] itself when [v] is in the range of [t].  It never fails on
    an integer cell: there is no range check. *)
Theorem callbackArg_cast_wraps (a : Arch) (t : reflect.rtype)
  (i : reflect.intType) (c : C.sqlite3_value) :
  reflect.asIntType t = Some i ->
  castType i = true ->
  C.vtype c = INTEGER ->
  int64_range (C.ival c) ->
  exists cv,
    callbackArg a t = Return (Some cv, None) /\
    cv c = Return (reflect.VInt (reflect.typeName t) i
                     (reflect.wrap a i (C.ival c)), None) /\
    (reflect.inRange a i (C.ival c) = true ->
     cv c = Return (reflect.VInt (reflect.typeName t) i (C.ival c), None)).
Proof.
  intros Ht Hk Hc Hv.
  exists (callbackArgCast_Run a (mkCast callbackArgInt64 t)).
  assert (Hrun : callbackArgCast_Run a (mkCast callbackArgInt64 t) c =
                 Return (reflect.VInt (reflect.typeName t) i
                           (reflect.wrap a i (C.ival c)), None)).
  { rewrite (cast_Run_int a t i c Ht Hc). now rewrite to_int64_id. }
  split; [| split].
  - unfold callbackArg. rewrite (asIntType_Kind t i Ht).
    destruct i; try discriminate Hk; reflexivity.
  - exact Hrun.
  - intros Hin. rewrite Hrun. now rewrite wrap_inRange.
Qed.

(** C1, the counterexample: a 32-bit signed parameter given the integer
    cell 5_000_000_000, which is outside int32, converts without an
    error, to 5_000_000_000 - 2^32. *)
Lemma callbackArg_int32_overflow_succeeds :
  reflect.inRange Arch64 reflect.int32 5000000000 = false /\
  exists cv,
    callbackArg Arch64 (reflect.TInt reflect.int32) = Return (Some cv, None) /\
    cv (C.mkValue INTEGER 5000000000 (S754_zero false) []) =
    Return (reflect.VInt None reflect.int32 705032704, None).
Proof.
  split; [reflexivity |].
  eexists. split; reflexivity.
Qed.

Lemma callbackArg_cast_wraps_witness :
  exists cv,
    callbackArg Arch64 (reflect.TInt reflect.int32) = Return (Some cv, None) /\
    cv (C.mkValue INTEGER 300 (S754_zero false) []) =
    Return (reflect.VInt None reflect.int32
              (reflect.wrap Arch64 reflect.int32 300), None) /\
    (reflect.inRange Arch64 reflect.int32 300 = true ->
     cv (C.mkValue INTEGER 300 (S754_zero false) []) =
     Return (reflect.VInt None reflect.int32 300, None)).
Proof.
  apply (callbackArg_cast_wraps Arch64 (reflect.TInt reflect.int32)
           reflect.int32 (C.mkValue INTEGER 300 (S754_zero false) [])).
  - reflexivity.
  - reflexivity.
  - reflexivity.
  - unfold int64_range. simpl. lia.
Defined.

(** The cast to the narrower float width rounds to nearest even. *)
Lemma callbackArg_cast_float32 (a : Arch) (t : reflect.rtype)
  (c : C.sqlite3_value) :
  reflect.asFloatType t = Some reflect.float32 ->
  C.vtype c = FLOAT ->
  exists cv,
    callbackArg a t = Return (Some cv, None) /\
    cv c = Return (reflect.VFloat (reflect.typeName t) reflect.float32
                     (reflect.roundTo reflect.float32 (C.rval c)), None).
Proof.
  intros Ht Hc.
  exists (callbackArgCast_Run a (mkCast callbackArgFloat64 t)). split.
  - unfold callbackArg. now rewrite (asFloatType_Kind t _ Ht).
  - unfold callbackArgCast_Run. simpl f. simpl typ.
    unfold callbackArgFloat64, C.sqlite3_value_type. rewrite Hc. simpl.
    unfold reflect.Type_ConvertibleTo. simpl. now rewrite Ht.
Qed.

(** ** The primitive argument converters *)

Lemma callbackArgFloat64_FLOAT (c : C.sqlite3_value) :
  C.vtype c = FLOAT ->
  callbackArgFloat64 c = Return (ValueOf_float64 (C.rval c), None).
Proof.
  intros H. unfold callbackArgFloat64, C.sqlite3_value_type. now rewrite H.
Qed.

Lemma callbackArgFloat64_other (c : C.sqlite3_value) :
  C.vtype c <> FLOAT ->
  callbackArgFloat64 c =
  Return (reflect.VInvalid,
          Some (pkgErr MISUSE "argument must be a FLOAT" [])).
Proof.
  intros H. unfold callbackArgFloat64, C.sqlite3_value_type.
  apply Z.eqb_neq in H. now rewrite H.
Qed.

Lemma callbackArgBool_other (c : C.sqlite3_value) :
  C.vtype c <> INTEGER ->
  callbackArgBool c =
  Return (reflect.VInvalid,
          Some (pkgErr MISUSE "argument must be an INTEGER" [])).
Proof.
  intros H. unfold callbackArgBool, C.sqlite3_value_type.
  apply Z.eqb_neq in H. now rewrite H.
Qed.

Lemma callbackArgBytes_other (c : C.sqlite3_value) :
  C.vtype c <> BLOB -> C.vtype c <> TEXT ->
  callbackArgBytes c =
  Return (reflect.VInvalid,
          Some (pkgErr MISUSE "argument must be BLOB or TEXT" [])).
Proof.
  intros Hb Ht. unfold callbackArgBytes, C.sqlite3_value_type.
  apply Z.eqb_neq in Hb, Ht. now rewrite Hb, Ht.
Qed.

Lemma callbackArgString_other (c : C.sqlite3_value) :
  C.vtype c <> BLOB -> C.vtype c <> TEXT ->
  callbackArgString c =
  Return (reflect.VInvalid,
          Some (pkgErr MISUSE "argument must be BLOB or TEXT" [])).
Proof.
  intros Hb Ht. unfold callbackArgString, C.sqlite3_value_type.
  apply Z.eqb_neq in Hb, Ht. now rewrite Hb, Ht.
Qed.

(** [GoBytes] with the reported length copies the whole content,
    whatever follows it in memory. *)
Lemma GoBytes_content (d rest : list byte) :
  C.GoBytes (d ++ rest) (Z.of_nat (List.length d)) = d.
Proof.
  unfold C.GoBytes. rewrite Nat2Z.id, firstn_app, firstn_all.
  rewrite Nat.sub_diag. simpl. apply app_nil_r.
Qed.

(** [GoString] stops at the first zero byte. *)
Lemma GoString_stops (pre rest : list byte) :
  ~ In x00 pre -> C.GoString (pre ++ x00 :: rest) = pre.
Proof.
  induction pre as [| b pre IH]; intros Hn.
  - reflexivity.
  - simpl. destruct (Byte.eqb b x00) eqn:E.
    + apply Byte.byte_dec_bl in E. subst b. exfalso. apply Hn. now left.
    + f_equal. apply IH. intros Hin. apply Hn. now right.
Qed.

Lemma GoString_no_nul (d : list byte) :
  ~ In x00 d -> C.GoString (d ++ [x00]) = d.
Proof. apply GoString_stops. Qed.

(** [GoString] never yields a zero byte. *)
Lemma GoString_nul_free (p : C.ptr) : ~ In x00 (C.GoString p).
Proof.
  induction p as [| b p IH]; simpl; [tauto |].
  destruct (Byte.eqb b x00) eqn:E; simpl; [tauto |].
  intros [H | H]; [| now apply IH].
  subst b. discriminate E.
Qed.

Lemma callbackArgBytes_TEXT (c : C.sqlite3_value) :
  C.vtype c = TEXT ->
  callbackArgBytes c = Return (ValueOf_bytes (Some (C.data c)), None).
Proof.
  intros H. unfold callbackArgBytes, C.sqlite3_value_type. rewrite H.
  simpl. unfold C.sqlite3_value_text, C.sqlite3_value_bytes.
  now rewrite GoBytes_content.
Qed.

Lemma callbackArgBytes_BLOB (c : C.sqlite3_value) :
  C.vtype c = BLOB ->
  callbackArgBytes c = Return (ValueOf_bytes (Some (C.data c)), None).
Proof.
  intros H. unfold callbackArgBytes, C.sqlite3_value_type. rewrite H.
  simpl. unfold C.sqlite3_value_blob, C.sqlite3_value_bytes.
  rewrite <- (app_nil_r (C.data c)) at 1. now rewrite GoBytes_content.
Qed.

Lemma callbackArgString_BLOB (c : C.sqlite3_value) :
  C.vtype c = BLOB ->
  callbackArgString c = Return (ValueOf_string (C.data c), None).
Proof.
  intros H. unfold callbackArgString, C.sqlite3_value_type. rewrite H.
  simpl. unfold C.sqlite3_value_blob, C.sqlite3_value_bytes, C.GoStringN.
  now rewrite Nat2Z.id, firstn_all.
Qed.

Lemma callbackArgString_TEXT (c : C.sqlite3_value) :
  C.vtype c = TEXT ->
  callbackArgString c =
  Return (ValueOf_string (C.GoString (C.data c ++ [x00])), None).
Proof.
  intros H. unfold callbackArgString, C.sqlite3_value_type. now rewrite H.
Qed.

(** A text without a zero byte is copied whole. *)
Lemma callbackArgString_TEXT_whole (c : C.sqlite3_value) :
  C.vtype c = TEXT ->
  ~ In x00 (C.data c) ->
  callbackArgString c = Return (ValueOf_string (C.data c), None).
Proof.
  intros Ht Hn. rewrite (callbackArgString_TEXT c Ht).
  now rewrite GoString_no_nul.
Qed.

(** The branch the generic converter takes, by the type of the cell. *)
Lemma generic_by_type (c : C.sqlite3_value) :
  (C.vtype c = INTEGER -> callbackArgGeneric c = callbackArgInt64 c) /\
  (C.vtype c = FLOAT -> callbackArgGeneric c = callbackArgFloat64 c) /\
  (C.vtype c = TEXT -> callbackArgGeneric c = callbackArgString c) /\
  (C.vtype c = BLOB -> callbackArgGeneric c = callbackArgBytes c) /\
  (C.vtype c = NULL ->
   callbackArgGeneric c = Return (ValueOf_bytes None, None)).
Proof.
  unfold callbackArgGeneric, C.sqlite3_value_type.
  split; [| split; [| split; [| split]]]; intros H; rewrite H; reflexivity.
Qed.

(** C3.  The generic converter dispatches on the cell's type: on an
    INTEGER, FLOAT, TEXT or BLOB cell it returns what [callbackArgInt64],
    [callbackArgFloat64], [callbackArgString] or [callbackArgBytes]
    returns on that cell, and on a NULL cell it returns the nil byte
    slice and no error. *)
Theorem callbackArgGeneric_dispatch (c : C.sqlite3_value) :
  (C.vtype c = INTEGER -> callbackArgGeneric c = callbackArgInt64 c) /\
  (C.vtype c = FLOAT -> callbackArgGeneric c = callbackArgFloat64 c) /\
  (C.vtype c = TEXT -> callbackArgGeneric c = callbackArgString c) /\
  (C.vtype c = BLOB -> callbackArgGeneric c = callbackArgBytes c) /\
  (C.vtype c = NULL ->
   callbackArgGeneric c = Return (ValueOf_bytes None, None)).
Proof.
  unfold callbackArgGeneric, C.sqlite3_value_type.
  repeat split; intros H; rewrite H; reflexivity.
Qed.

Lemma callbackArgGeneric_dispatch_witness :
  callbackArgGeneric (C.mkValue NULL 0 (S754_zero false) []) =
  Return (ValueOf_bytes None, None) /\
  callbackArgGeneric (C.mkValue FLOAT 0 (S754_finite false 3 (-1)) []) =
  callbackArgFloat64 (C.mkValue FLOAT 0 (S754_finite false 3 (-1)) []).
Proof.
  split.
  - apply (callbackArgGeneric_dispatch
             (C.mkValue NULL 0 (S754_zero false) [])).
    reflexivity.
  - apply (callbackArgGeneric_dispatch
             (C.mkValue FLOAT 0 (S754_finite false 3 (-1)) [])).
    reflexivity.
Defined.

(** C4.  On a cell of type INTEGER holding the 64-bit value [v],
    [callbackArgInt64] returns exactly [v] as an int64 and the generic
    converter returns the same; on a cell of any other type
    [callbackArgInt64] fails with MISUSE "argument must be an INTEGER". *)
Theorem callbackArgInt64_exact (c : C.sqlite3_value) :
  (C.vtype c = INTEGER -> int64_range (C.ival c) ->
   callbackArgInt64 c = Return (ValueOf_int64 (C.ival c), None) /\
   callbackArgGeneric c = Return (ValueOf_int64 (C.ival c), None)) /\
  (C.vtype c <> INTEGER ->
   callbackArgInt64 c =
   Return (reflect.VInvalid,
           Some (pkgErr MISUSE "argument must be an INTEGER" []))).
Proof.
  split.
  - intros Ht Hv.
    assert (H : callbackArgInt64 c =
                Return (ValueOf_int64 (C.ival c), None)).
    { rewrite (callbackArgInt64_INTEGER c Ht). now rewrite to_int64_id. }
    split; [exact H |].
    destruct (generic_by_type c) as [Hi _].
    now rewrite (Hi Ht).
  - apply callbackArgInt64_other.
Qed.

Lemma callbackArgInt64_exact_witness :
  (callbackArgInt64 (C.mkValue INTEGER (-7) (S754_zero false) []) =
   Return (ValueOf_int64 (-7), None) /\
   callbackArgGeneric (C.mkValue INTEGER (-7) (S754_zero false) []) =
   Return (ValueOf_int64 (-7), None)) /\
  callbackArgInt64 (C.mkValue TEXT 0 (S754_zero false) [x37]) =
  Return (reflect.VInvalid,
          Some (pkgErr MISUSE "argument must be an INTEGER" [])).
Proof.
  split.
  - apply (callbackArgInt64_exact
             (C.mkValue INTEGER (-7) (S754_zero false) [])).
    + reflexivity.
    + unfold int64_range. simpl. lia.
  - apply (callbackArgInt64_exact
             (C.mkValue TEXT 0 (S754_zero false) [x37])).
    discriminate.
Defined.

(** C8.  A FLOAT, TEXT or BLOB cell given to a converter that requires
    another type makes it return a MISUSE error and the zero Value:
    [callbackArgInt64] (and [callbackArgBool]) require INTEGER,
    [callbackArgFloat64] requires FLOAT, [callbackArgBytes] and
    [callbackArgString] require BLOB or TEXT.  None of them panics, and
    the generic converter does not reach its unreachable branch on a
    cell of one of the five engine types. *)
Theorem arg_kind_mismatch_is_MISUSE (c : C.sqlite3_value) :
  (C.vtype c = FLOAT \/ C.vtype c = TEXT \/ C.vtype c = BLOB ->
   callbackArgInt64 c =
   Return (reflect.VInvalid,
           Some (pkgErr MISUSE "argument must be an INTEGER" [])) /\
   callbackArgBool c =
   Return (reflect.VInvalid,
           Some (pkgErr MISUSE "argument must be an INTEGER" []))) /\
  (C.vtype c = TEXT \/ C.vtype c = BLOB ->
   callbackArgFloat64 c =
   Return (reflect.VInvalid,
           Some (pkgErr MISUSE "argument must be a FLOAT" []))) /\
  (C.vtype c = FLOAT ->
   callbackArgBytes c =
   Return (reflect.VInvalid,
           Some (pkgErr MISUSE "argument must be BLOB or TEXT" [])) /\
   callbackArgString c =
   Return (reflect.VInvalid,
           Some (pkgErr MISUSE "argument must be BLOB or TEXT" []))) /\
  (engineKind c ->
   exists r, callbackArgGeneric c = Return r /\ oneOfValueOrError r).
Proof.
  split; [| split; [| split]].
  - intros H. split.
    + apply callbackArgInt64_other.
      destruct H as [H | [H | H]]; rewrite H; discriminate.
    + apply callbackArgBool_other.
      destruct H as [H | [H | H]]; rewrite H; discriminate.
  - intros H. apply callbackArgFloat64_other.
    destruct H as [H | H]; rewrite H; discriminate.
  - intros H. split.
    + apply callbackArgBytes_other; rewrite H; discriminate.
    + apply callbackArgString_other; rewrite H; discriminate.
  - intros [H | [H | [H | [H | H]]]];
      destruct (generic_by_type c) as (Hi & Hf & Ht & Hb & Hn).
    + rewrite (Hi H), (callbackArgInt64_INTEGER c H). eexists.
      split; [reflexivity | exact I].
    + rewrite (Hf H), (callbackArgFloat64_FLOAT c H). eexists.
      split; [reflexivity | exact I].
    + rewrite (Ht H), (callbackArgString_TEXT c H). eexists.
      split; [reflexivity | exact I].
    + rewrite (Hb H), (callbackArgBytes_BLOB c H). eexists.
      split; [reflexivity | exact I].
    + rewrite (Hn H). eexists. split; [reflexivity | exact I].
Qed.

Lemma arg_kind_mismatch_is_MISUSE_witness :
  callbackArgInt64 (C.mkValue TEXT 0 (S754_zero false) [x37]) =
  Return (reflect.VInvalid,
          Some (pkgErr MISUSE "argument must be an INTEGER" [])) /\
  callbackArgFloat64 (C.mkValue BLOB 0 (S754_zero false) [x37]) =
  Return (reflect.VInvalid,
          Some (pkgErr MISUSE "argument must be a FLOAT" [])) /\
  callbackArgString (C.mkValue FLOAT 0 (S754_finite false 3 (-1)) []) =
  Return (reflect.VInvalid,
          Some (pkgErr MISUSE "argument must be BLOB or TEXT" [])) /\
  exists r,
    callbackArgGeneric (C.mkValue BLOB 0 (S754_zero false) [x37]) = Return r /\
    oneOfValueOrError r.
Proof.
  split; [| split; [| split]].
  - apply (arg_kind_mismatch_is_MISUSE
             (C.mkValue TEXT 0 (S754_zero false) [x37])).
    right. left. reflexivity.
  - apply (arg_kind_mismatch_is_MISUSE
             (C.mkValue BLOB 0 (S754_zero false) [x37])).
    right. reflexivity.
  - apply (arg_kind_mismatch_is_MISUSE
             (C.mkValue FLOAT 0 (S754_finite false 3 (-1)) [])).
    reflexivity.
  - apply (arg_kind_mismatch_is_MISUSE
             (C.mkValue BLOB 0 (S754_zero false) [x37])).
    right. right. right. left. reflexivity.
Defined.

(** C9.  On a TEXT cell whose content has a zero byte, [callbackArgString]
    returns only the bytes before the first zero byte, while
    [callbackArgBytes] returns the whole content up to the reported
    length; the two differ, so the string conversion loses the rest. *)
Theorem text_embedded_nul_truncates (c : C.sqlite3_value)
  (pre post : list byte) :
  C.vtype c = TEXT ->
  C.data c = pre ++ x00 :: post ->
  ~ In x00 pre ->
  callbackArgString c = Return (ValueOf_string pre, None) /\
  callbackArgBytes c =
  Return (ValueOf_bytes (Some (pre ++ x00 :: post)), None) /\
  pre <> pre ++ x00 :: post.
Proof.
  intros Ht Hd Hn. split; [| split].
  - rewrite (callbackArgString_TEXT c Ht), Hd, <- app_assoc. simpl.
    now rewrite GoString_stops.
  - now rewrite (callbackArgBytes_TEXT c Ht), Hd.
  - intros E. apply (f_equal (@List.length byte)) in E.
    rewrite length_app in E. simpl in E. lia.
Qed.

Lemma text_embedded_nul_truncates_witness :
  callbackArgString (C.mkValue TEXT 0 (S754_zero false) [x61; x00; x62]) =
  Return (ValueOf_string [x61], None) /\
  callbackArgBytes (C.mkValue TEXT 0 (S754_zero false) [x61; x00; x62]) =
  Return (ValueOf_bytes (Some ([x61] ++ x00 :: [x62])), None) /\
  [x61] <> [x61] ++ x00 :: [x62].
Proof.
  apply (text_embedded_nul_truncates
           (C.mkValue TEXT 0 (S754_zero false) [x61; x00; x62])
           [x61] [x62]).
  - reflexivity.
  - reflexivity.
  - simpl. intros [H | H]; [discriminate H | exact H].
Defined.

(** ** The builders *)

Lemma callbackArg_total (a : Arch) (t : reflect.rtype) :
  builtOrRejected (callbackArg a t).
Proof.
  unfold builtOrRejected, callbackArg.
  destruct (reflect.Type_Kind t) eqn:K;
    try (left; eexists; reflexivity);
    try (right; eexists; split; reflexivity).
  - destruct (Nat.eqb (reflect.Type_NumMethod t) 0); simpl.
    + left. eexists. reflexivity.
    + right. eexists. split; reflexivity.
  - destruct (Kind_Slice_Elem t K) as [e He]. rewrite He. simpl.
    destruct (reflect.Type_Kind e);
      try (left; eexists; reflexivity);
      right; eexists; split; reflexivity.
Qed.

Lemma callbackRet_total (a : Arch) (t : reflect.rtype) :
  builtOrRejected (callbackRet a t).
Proof.
  unfold builtOrRejected, callbackRet.
  destruct (reflect.Type_Kind t) eqn:K;
    try (left; eexists; reflexivity);
    try (right; eexists; split; reflexivity).
  destruct (Kind_Slice_Elem t K) as [e He]. rewrite He. simpl.
  destruct (reflect.Type_Kind e);
    try (left; eexists; reflexivity);
    right; eexists; split; reflexivity.
Qed.

(** C6 (as amended).  A declared type with no conversion is rejected by
    the builder itself, with a MISUSE error and no converter: a slice
    whose element kind is not Uint8 yields "the only supported slice
    type is []byte" from both builders; an interface type with methods
    yields "the only supported interface type is interface{}" from
    [callbackArg]; every kind a builder has no case for yields "don't
    know how to convert to X", which for [callbackRet] includes every
    interface type.  Each builder returns either a converter or such an
    error, and never panics. *)
Theorem builders_reject_at_registration (a : Arch) (t : reflect.rtype) :
  (forall e,
      reflect.Type_Kind t = reflect.Slice ->
      reflect.Type_Elem t = Return e ->
      reflect.Type_Kind e <> reflect.Uint8 ->
      callbackArg a t =
      Return (None, Some (pkgErr MISUSE
                            "the only supported slice type is []byte" [])) /\
      callbackRet a t =
      Return (None, Some (pkgErr MISUSE
                            "the only supported slice type is []byte" []))) /\
  (reflect.Type_Kind t = reflect.Interface ->
   reflect.Type_NumMethod t <> 0%nat ->
   callbackArg a t =
   Return (None,
           Some (pkgErr MISUSE
                   "the only supported interface type is interface{}" []))) /\
  (argNoConversion (reflect.Type_Kind t) = true ->
   callbackArg a t =
   Return (None,
           Some (pkgErr MISUSE "don't know how to convert to %s" [t]))) /\
  (retNoConversion (reflect.Type_Kind t) = true ->
   callbackRet a t =
   Return (None,
           Some (pkgErr MISUSE "don't know how to convert to %s" [t]))) /\
  builtOrRejected (callbackArg a t) /\
  builtOrRejected (callbackRet a t).
Proof.
  split; [| split; [| split; [| split; [| split]]]].
  - intros e K He Hk. unfold callbackArg, callbackRet.
    rewrite K, He. simpl.
    destruct (reflect.Type_Kind e); try (split; reflexivity).
    now contradiction Hk.
  - intros K Hm. unfold callbackArg. rewrite K.
    apply Nat.eqb_neq in Hm. now rewrite Hm.
  - intros H. unfold callbackArg.
    destruct (reflect.Type_Kind t); try discriminate H; reflexivity.
  - intros H. unfold callbackRet.
    destruct (reflect.Type_Kind t); try discriminate H; reflexivity.
  - apply callbackArg_total.
  - apply callbackRet_total.
Qed.

Lemma builders_reject_at_registration_witness :
  (callbackArg Arch64 (reflect.TSlice (reflect.TInt reflect.int)) =
   Return (None, Some (pkgErr MISUSE
                         "the only supported slice type is []byte" [])) /\
   callbackRet Arch64 (reflect.TSlice (reflect.TInt reflect.int)) =
   Return (None, Some (pkgErr MISUSE
                         "the only supported slice type is []byte" []))) /\
  callbackArg Arch64 (reflect.TNamed "error" (reflect.TInterface ["Error"])) =
  Return (None,
          Some (pkgErr MISUSE
                  "the only supported interface type is interface{}" [])) /\
  callbackArg Arch64 (reflect.TStruct ["x"]) =
  Return (None,
          Some (pkgErr MISUSE "don't know how to convert to %s"
                  [reflect.TStruct ["x"]])) /\
  callbackRet Arch64 (reflect.TInterface []) =
  Return (None,
          Some (pkgErr MISUSE "don't know how to convert to %s"
                  [reflect.TInterface []])).
Proof.
  split; [| split; [| split]].
  - apply (proj1 (builders_reject_at_registration Arch64
                    (reflect.TSlice (reflect.TInt reflect.int)))
             (reflect.TInt reflect.int)).
    + reflexivity.
    + reflexivity.
    + discriminate.
  - apply (builders_reject_at_registration Arch64
             (reflect.TNamed "error" (reflect.TInterface ["Error"]))).
    + reflexivity.
    + discriminate.
  - apply (builders_reject_at_registration Arch64 (reflect.TStruct ["x"])).
    reflexivity.
  - apply (builders_reject_at_registration Arch64 (reflect.TInterface [])).
    reflexivity.
Defined.

(** C6, the counterexample: for an interface type with a method the
    return builder does not answer "the only supported interface type
    is interface{}"; it has no case for interfaces and answers "don't
    know how to convert to X". *)
Lemma callbackRet_interface_message :
  callbackRet Arch64 (reflect.TInterface ["Error"]) =
  Return (None,
          Some (pkgErr MISUSE "don't know how to convert to %s"
                  [reflect.TInterface ["Error"]])) /\
  callbackRet Arch64 (reflect.TInterface ["Error"]) <>
  Return (None,
          Some (pkgErr MISUSE
                  "the only supported interface type is interface{}" [])).
Proof.
  split; [reflexivity | discriminate].
Qed.

(** ** The return converters *)

Lemma Kind_withName (n : option string) (t : reflect.rtype) :
  reflect.Type_Kind (reflect.withName n t) = reflect.Type_Kind t.
Proof. now destruct n. Qed.

Lemma wrap_int64_arch (a : Arch) (z : Z) :
  reflect.wrap a reflect.int64 z = to_int64 z.
Proof. now destruct a. Qed.

Lemma to_int64_range (z : Z) : int64_range (to_int64 z).
Proof.
  unfold int64_range, to_int64, reflect.wrap. simpl reflect.isSigned.
  cbv iota zeta. change (reflect.bitSize Arch64 reflect.int64) with 64.
  change (64 - 1) with 63.
  pose proof (Z.mod_pos_bound (z + 2 ^ 63) (2 ^ 64)). lia.
Qed.

Lemma to_int64_idem (z : Z) : to_int64 (to_int64 z) = to_int64 z.
Proof. apply to_int64_id, to_int64_range. Qed.

(** An integer of any width other than int64, of a predeclared or a
    defined type, is converted to int64 and written. *)
Lemma callbackRetInteger_cast (a : Arch) (ctx : C.sqlite3_context)
  (n : option string) (i : reflect.intType) (z : Z) :
  castType i = true ->
  callbackRetInteger a ctx (reflect.VInt n i z) =
  (ctx ++ [C.result_int64 (to_int64 z)], Return None).
Proof.
  intros Hi. unfold callbackRetInteger. simpl reflect.Value_Type.
  simpl bind at 1. rewrite Kind_withName.
  destruct i; try discriminate Hi; simpl;
    rewrite wrap_int64_arch, to_int64_idem; reflexivity.
Qed.

Lemma callbackRetInteger_int64 (a : Arch) (ctx : C.sqlite3_context)
  (z : Z) :
  callbackRetInteger a ctx (ValueOf_int64 z) =
  (ctx ++ [C.result_int64 (to_int64 z)], Return None).
Proof. reflexivity. Qed.

Lemma callbackRetInteger_bool (a : Arch) (ctx : C.sqlite3_context)
  (b : bool) :
  callbackRetInteger a ctx (ValueOf_bool b) =
  (ctx ++ [C.result_int64 (if b then 1 else 0)], Return None).
Proof. now destruct b. Qed.

(** The kinds [callbackRetInteger] has a case for. *)
Lemma callbackRetInteger_other (a : Arch) (ctx : C.sqlite3_context)
  (v : reflect.Value) (t : reflect.rtype) :
  reflect.Value_Type v = Return t ->
  match reflect.Type_Kind t with
  | reflect.Bool | reflect.Int | reflect.Int8 | reflect.Int16
  | reflect.Int32 | reflect.Int64 | reflect.Uint | reflect.Uint8
  | reflect.Uint16 | reflect.Uint32 | reflect.Uint64 => False
  | _ => True
  end ->
  callbackRetInteger a ctx v =
  (ctx, Return (Some (pkgErr MISUSE "cannot convert %s to INTEGER" [t]))).
Proof.
  intros Ht Hk. unfold callbackRetInteger. rewrite Ht. simpl bind at 1.
  destruct (reflect.Type_Kind t); try contradiction; reflexivity.
Qed.

(** C5.  The integer-family return converter at a value of a defined
    type whose kind is Int64 or Bool, such as [type ID int64] and
    [type Flag bool]: the type assertions [.(int64)] and [.(bool)] fail,
    so it panics, writing nothing and returning no error. *)
Theorem callbackRetInteger_defined_type_panics (a : Arch)
  (ctx : C.sqlite3_context) (name : string) (z : Z) (b : bool) :
  callbackRetInteger a ctx (reflect.VInt (Some name) reflect.int64 z) =
  (ctx, Panic "interface conversion: interface {} is not int64") /\
  callbackRetInteger a ctx (reflect.VBool (Some name) b) =
  (ctx, Panic "interface conversion: interface {} is not bool").
Proof. split; reflexivity. Qed.

(** C10.  A uint64 value [v] with [v >= 2^63] is accepted by the
    integer-family return converter, which writes [v - 2^64], the
    negative int64 with the same 64 bits, and returns no error. *)
Theorem callbackRetInteger_uint64_high (a : Arch)
  (ctx : C.sqlite3_context) (n : option string) (v : Z) :
  2 ^ 63 <= v < 2 ^ 64 ->
  callbackRetInteger a ctx (reflect.VInt n reflect.uint64 v) =
  (ctx ++ [C.result_int64 (v - 2 ^ 64)], Return None) /\
  v - 2 ^ 64 < 0 /\
  (v - 2 ^ 64) mod 2 ^ 64 = v.
Proof.
  intros Hv. split; [| split].
  - rewrite callbackRetInteger_cast by reflexivity.
    now rewrite to_int64_high.
  - lia.
  - replace (v - 2 ^ 64) with (v + (-1) * 2 ^ 64) by lia.
    rewrite Z.mod_add by lia. apply Z.mod_small. lia.
Qed.

Lemma callbackRetInteger_uint64_high_witness :
  callbackRetInteger Arch64 [] (reflect.VInt None reflect.uint64
                                  18446744073709551615) =
  ([] ++ [C.result_int64 (18446744073709551615 - 2 ^ 64)], Return None) /\
  18446744073709551615 - 2 ^ 64 < 0 /\
  (18446744073709551615 - 2 ^ 64) mod 2 ^ 64 = 18446744073709551615.
Proof.
  apply (callbackRetInteger_uint64_high Arch64 [] None 18446744073709551615).
  simpl. lia.
Defined.

Lemma callbackRetBlob_other (ctx : C.sqlite3_context) (v : reflect.Value)
  (t : reflect.rtype) :
  reflect.Value_Type v = Return t ->
  notByteSlice t = Return true ->
  callbackRetBlob ctx v =
  (ctx, Return (Some (pkgErr MISUSE "cannot convert %s to BLOB" [t]))).
Proof.
  intros Ht Hn. unfold callbackRetBlob. rewrite Ht. cbn [bind].
  now rewrite Hn.
Qed.

(** An empty and a nil []byte both make the engine result NULL. *)
Lemma callbackRetBlob_empty (ctx : C.sqlite3_context)
  (s : option (list byte)) :
  len s = 0 ->
  callbackRetBlob ctx (ValueOf_bytes s) =
  (ctx ++ [C.result_null], Return None).
Proof.
  intros H. destruct s as [[| b l] |]; try reflexivity.
  simpl in H. lia.
Qed.

Lemma callbackRetBlob_bytes (ctx : C.sqlite3_context) (b : byte)
  (l : list byte) :
  callbackRetBlob ctx (ValueOf_bytes (Some (b :: l))) =
  (ctx ++ [C.result_blob (b :: l) (to_C_int (len (Some (b :: l))))],
   Return None).
Proof. reflexivity. Qed.

(** C2.  The BLOB return converter at a byte slice of a defined type,
    such as [type Blob []byte], or of a defined element type, such as
    [[]Octet] with [type Octet uint8]: the kind test passes, the type
    assertion [.([]byte)] fails, so it panics, writing nothing and
    returning no error. *)
Theorem callbackRetBlob_defined_type_panics (ctx : C.sqlite3_context)
  (name : string) (s : option (list byte)) :
  callbackRetBlob ctx (reflect.VBytes (Some name) None s) =
  (ctx, Panic "interface conversion: interface {} is not []uint8") /\
  callbackRetBlob ctx (reflect.VBytes None (Some name) s) =
  (ctx, Panic "interface conversion: interface {} is not []uint8").
Proof. split; reflexivity. Qed.

(** ** One write per call *)

Lemma callbackRetInteger_shape (a : Arch) : retShape (callbackRetInteger a).
Proof.
  intros ctx v. unfold callbackRetInteger, bind.
  repeat (case_scrutinee; cbn); try reflexivity;
    eexists; split; reflexivity.
Qed.

Lemma callbackRetFloat_shape (a : Arch) : retShape (callbackRetFloat a).
Proof.
  intros ctx v. unfold callbackRetFloat, bind.
  repeat (case_scrutinee; cbn); try reflexivity;
    eexists; split; reflexivity.
Qed.

Lemma callbackRetBlob_shape : retShape callbackRetBlob.
Proof.
  intros ctx v. unfold callbackRetBlob, notByteSlice, bind.
  repeat (case_scrutinee; cbn); try reflexivity;
    eexists; split; reflexivity.
Qed.

Lemma callbackRetText_shape : retShape callbackRetText.
Proof.
  intros ctx v. unfold callbackRetText, bind.
  repeat (case_scrutinee; cbn); try reflexivity;
    eexists; split; reflexivity.
Qed.

(** Whenever a return converter returns, the converter and
    [callbackError] together have invoked exactly one primitive: a
    result primitive if the converter succeeded, the error primitive
    with the converter's error otherwise. *)
Lemma surface_writes_once (conv : callbackRetConverter)
  (ctx ctx' : C.sqlite3_context) (v : reflect.Value) :
  retShape conv ->
  surface conv ctx v = (ctx', Return tt) ->
  (conv ctx v = (ctx', Return None) /\
   exists w, ctx' = ctx ++ [w] /\ isErrorResult w = false) \/
  (exists e, conv ctx v = (ctx, Return (Some e)) /\
             ctx' = ctx ++ [C.result_error e]).
Proof.
  intros Hs. unfold surface. specialize (Hs ctx v).
  destruct (conv ctx v) as [c1 [[e |] | why]]; simpl; intros H.
  - right. subst c1. exists e. split; [reflexivity |].
    now inversion H.
  - left. inversion H. subst c1. split; [reflexivity | exact Hs].
  - discriminate H.
Qed.

(** The primitive argument converters return, on every cell, a value
    and no error or the zero Value and an error. *)
Lemma arg_primitives_one_of (c : C.sqlite3_value) :
  (exists r, callbackArgInt64 c = Return r /\ oneOfValueOrError r) /\
  (exists r, callbackArgBool c = Return r /\ oneOfValueOrError r) /\
  (exists r, callbackArgFloat64 c = Return r /\ oneOfValueOrError r) /\
  (exists r, callbackArgBytes c = Return r /\ oneOfValueOrError r) /\
  (exists r, callbackArgString c = Return r /\ oneOfValueOrError r).
Proof.
  unfold callbackArgInt64, callbackArgBool, callbackArgFloat64,
    callbackArgBytes, callbackArgString.
  repeat split; repeat (case_scrutinee; cbn);
    eexists; split; try reflexivity; exact I.
Qed.

(** C7.  A return type the builder accepts and a value of that type
    for which neither a result nor an error reaches the engine: for a
    defined type of kind String, Int64, Bool or byte slice the
    converter panics, so the context is left as it was and
    [callbackError] is not reached. *)
Theorem surface_defined_type_writes_nothing (a : Arch)
  (ctx : C.sqlite3_context) (name : string) (s : list byte) (z : Z) :
  (exists conv,
      callbackRet a (reflect.TNamed name reflect.TString) =
      Return (Some conv, None) /\
      surface conv ctx (reflect.VString (Some name) s) =
      (ctx, Panic "interface conversion: interface {} is not string")) /\
  (exists conv,
      callbackRet a (reflect.TNamed name (reflect.TInt reflect.int64)) =
      Return (Some conv, None) /\
      surface conv ctx (reflect.VInt (Some name) reflect.int64 z) =
      (ctx, Panic "interface conversion: interface {} is not int64")).
Proof.
  split; eexists; split; reflexivity.
Qed.

(** * Further properties of the converters *)

(** ** Kinds determine the predeclared type underneath *)

Lemma Kind_asIntType (t : reflect.rtype) (i : reflect.intType) :
  reflect.Type_Kind t = reflect.intKind i -> reflect.asIntType t = Some i.
Proof.
  induction t; simpl; intros H; auto;
    try (destruct i; discriminate H).
  - match goal with
    | j : reflect.intType |- _ =>
        destruct j, i; try discriminate H; reflexivity
    end.
  - match goal with
    | x : reflect.floatType |- _ => destruct x, i; discriminate H
    end.
  - destruct wide, i; discriminate H.
Qed.

Lemma Kind_asFloatType (t : reflect.rtype) (x : reflect.floatType) :
  reflect.Type_Kind t = reflect.floatKind x ->
  reflect.asFloatType t = Some x.
Proof.
  induction t; simpl; intros H; auto;
    try (destruct x; discriminate H).
  - match goal with
    | j : reflect.intType |- _ => destruct j, x; discriminate H
    end.
  - match goal with
    | y : reflect.floatType |- _ =>
        destruct y, x; try discriminate H; reflexivity
    end.
  - destruct wide, x; discriminate H.
Qed.

Lemma cast_Run_float (a : Arch) (t : reflect.rtype)
  (x : reflect.floatType) (c : C.sqlite3_value) :
  reflect.asFloatType t = Some x ->
  reflect.asIntType t = None ->
  C.vtype c = FLOAT ->
  callbackArgCast_Run a (mkCast callbackArgFloat64 t) c =
  Return (reflect.VFloat (reflect.typeName t) x
            (reflect.roundTo x (C.rval c)), None).
Proof.
  intros Ht Hi Hc. unfold callbackArgCast_Run. simpl f. simpl typ.
  rewrite (callbackArgFloat64_FLOAT c Hc). simpl.
  unfold reflect.Type_ConvertibleTo. simpl. now rewrite Ht.
Qed.

Lemma asFloat_not_asInt (t : reflect.rtype) (x : reflect.floatType) :
  reflect.asFloatType t = Some x -> reflect.asIntType t = None.
Proof.
  induction t; simpl; intros H; try discriminate; auto.
Qed.

(** A cast converter hands on the error of the converter it wraps. *)
Lemma cast_Run_error (a : Arch) (k : callbackArgCast)
  (c : C.sqlite3_value) (val : reflect.Value) (e : Error) :
  f k c = Return (val, Some e) ->
  callbackArgCast_Run a k c = Return (reflect.VInvalid, Some e).
Proof.
  intros H. unfold callbackArgCast_Run. now rewrite H.
Qed.

(** What [callbackArg] builds, by the kind of the declared type. *)
Lemma callbackArg_built (a : Arch) (t : reflect.rtype)
  (cv : callbackArgConverter) :
  callbackArg a t = Return (Some cv, None) ->
  (reflect.Type_Kind t = reflect.Interface /\ cv = callbackArgGeneric) \/
  (reflect.Type_Kind t = reflect.Slice /\ cv = callbackArgBytes) \/
  (reflect.Type_Kind t = reflect.String /\ cv = callbackArgString) \/
  (reflect.Type_Kind t = reflect.Bool /\ cv = callbackArgBool) \/
  (reflect.asIntType t = Some reflect.int64 /\ cv = callbackArgInt64) \/
  (exists i, reflect.asIntType t = Some i /\ castType i = true /\
             cv = callbackArgCast_Run a (mkCast callbackArgInt64 t)) \/
  (reflect.asFloatType t = Some reflect.float64 /\
   cv = callbackArgFloat64) \/
  (reflect.asFloatType t = Some reflect.float32 /\
   cv = callbackArgCast_Run a (mkCast callbackArgFloat64 t)).
Proof.
  unfold callbackArg. intros H.
  destruct (reflect.Type_Kind t) eqn:K; try discriminate H.
  - do 3 right. left. now inversion H.
  - do 5 right. left. exists reflect.int.
    inversion H. now rewrite (Kind_asIntType t reflect.int K).
  - do 5 right. left. exists reflect.int8.
    inversion H. now rewrite (Kind_asIntType t reflect.int8 K).
  - do 5 right. left. exists reflect.int16.
    inversion H. now rewrite (Kind_asIntType t reflect.int16 K).
  - do 5 right. left. exists reflect.int32.
    inversion H. now rewrite (Kind_asIntType t reflect.int32 K).
  - do 4 right. left. inversion H.
    now rewrite (Kind_asIntType t reflect.int64 K).
  - do 5 right. left. exists reflect.uint.
    inversion H. now rewrite (Kind_asIntType t reflect.uint K).
  - do 5 right. left. exists reflect.uint8.
    inversion H. now rewrite (Kind_asIntType t reflect.uint8 K).
  - do 5 right. left. exists reflect.uint16.
    inversion H. now rewrite (Kind_asIntType t reflect.uint16 K).
  - do 5 right. left. exists reflect.uint32.
    inversion H. now rewrite (Kind_asIntType t reflect.uint32 K).
  - do 5 right. left. exists reflect.uint64.
    inversion H. now rewrite (Kind_asIntType t reflect.uint64 K).
  - do 7 right. inversion H.
    now rewrite (Kind_asFloatType t reflect.float32 K).
  - do 6 right. left. inversion H.
    now rewrite (Kind_asFloatType t reflect.float64 K).
  - left. destruct (Nat.eqb (reflect.Type_NumMethod t) 0);
      simpl in H; [| discriminate H]. now inversion H.
  - right. left. destruct (reflect.Type_Elem t) as [e |];
      simpl in H; [| discriminate H].
    destruct (reflect.Type_Kind e); try discriminate H. now inversion H.
  - do 2 right. left. now inversion H.
Qed.

(** ** Which cells a built argument converter takes *)

Lemma verdict_Int64 (c : C.sqlite3_value) :
  argVerdict (C.vtype c =? INTEGER) (callbackArgInt64 c).
Proof.
  unfold callbackArgInt64, C.sqlite3_value_type.
  destruct (C.vtype c =? INTEGER); simpl; repeat split; discriminate.
Qed.

Lemma verdict_Bool (c : C.sqlite3_value) :
  argVerdict (C.vtype c =? INTEGER) (callbackArgBool c).
Proof.
  unfold callbackArgBool, C.sqlite3_value_type.
  destruct (C.vtype c =? INTEGER); simpl; repeat split; discriminate.
Qed.

Lemma verdict_Float64 (c : C.sqlite3_value) :
  argVerdict (C.vtype c =? FLOAT) (callbackArgFloat64 c).
Proof.
  unfold callbackArgFloat64, C.sqlite3_value_type.
  destruct (C.vtype c =? FLOAT); simpl; repeat split; discriminate.
Qed.

Lemma verdict_Bytes (c : C.sqlite3_value) :
  argVerdict ((C.vtype c =? BLOB) || (C.vtype c =? TEXT))
    (callbackArgBytes c).
Proof.
  unfold callbackArgBytes, C.sqlite3_value_type.
  destruct (C.vtype c =? BLOB); [simpl; split; [reflexivity | discriminate] |].
  destruct (C.vtype c =? TEXT); simpl; repeat split; discriminate.
Qed.

Lemma verdict_String (c : C.sqlite3_value) :
  argVerdict ((C.vtype c =? BLOB) || (C.vtype c =? TEXT))
    (callbackArgString c).
Proof.
  unfold callbackArgString, C.sqlite3_value_type.
  destruct (C.vtype c =? BLOB); [simpl; split; [reflexivity | discriminate] |].
  destruct (C.vtype c =? TEXT); simpl; repeat split; discriminate.
Qed.

Lemma verdict_Generic (c : C.sqlite3_value) :
  engineKind c -> argVerdict true (callbackArgGeneric c).
Proof.
  intros Hc.
  destruct (generic_by_type c) as (Hi & Hf & Ht & Hb & Hn).
  destruct Hc as [H | [H | [H | [H | H]]]].
  - rewrite (Hi H), (callbackArgInt64_INTEGER c H).
    split; [reflexivity | discriminate].
  - rewrite (Hf H), (callbackArgFloat64_FLOAT c H).
    split; [reflexivity | discriminate].
  - rewrite (Ht H), (callbackArgString_TEXT c H).
    split; [reflexivity | discriminate].
  - rewrite (Hb H), (callbackArgBytes_BLOB c H).
    split; [reflexivity | discriminate].
  - rewrite (Hn H). split; [reflexivity | discriminate].
Qed.

Lemma verdict_cast_int (a : Arch) (t : reflect.rtype)
  (i : reflect.intType) (c : C.sqlite3_value) :
  reflect.asIntType t = Some i ->
  argVerdict (C.vtype c =? INTEGER)
    (callbackArgCast_Run a (mkCast callbackArgInt64 t) c).
Proof.
  intros Ht. destruct (C.vtype c =? INTEGER) eqn:E.
  - apply Z.eqb_eq in E. rewrite (cast_Run_int a t i c Ht E).
    split; [reflexivity | discriminate].
  - apply Z.eqb_neq in E.
    rewrite (cast_Run_error a (mkCast callbackArgInt64 t) c _ _
               (callbackArgInt64_other c E)).
    repeat split.
Qed.

Lemma verdict_cast_float (a : Arch) (t : reflect.rtype)
  (x : reflect.floatType) (c : C.sqlite3_value) :
  reflect.asFloatType t = Some x ->
  argVerdict (C.vtype c =? FLOAT)
    (callbackArgCast_Run a (mkCast callbackArgFloat64 t) c).
Proof.
  intros Ht. destruct (C.vtype c =? FLOAT) eqn:E.
  - apply Z.eqb_eq in E.
    rewrite (cast_Run_float a t x c Ht (asFloat_not_asInt t x Ht) E).
    split; [reflexivity | discriminate].
  - apply Z.eqb_neq in E.
    rewrite (cast_Run_error a (mkCast callbackArgFloat64 t) c _ _
               (callbackArgFloat64_other c E)).
    repeat split.
Qed.

(** X1.  A converter built by [callbackArg], run on a cell of one of the
    five engine types, never panics: it yields a value and no error
    when the declared kind takes the cell's type (interface: every
    type; byte slice and string: BLOB and TEXT; bool and the integer
    kinds: INTEGER; the float kinds: FLOAT), and the zero Value with a
    MISUSE error otherwise. *)
Theorem built_arg_converter_verdict (a : Arch) (t : reflect.rtype)
  (cv : callbackArgConverter) (c : C.sqlite3_value) :
  callbackArg a t = Return (Some cv, None) ->
  engineKind c ->
  argVerdict (accepts (reflect.Type_Kind t) (C.vtype c)) (cv c).
Proof.
  intros H Hc.
  destruct (callbackArg_built a t cv H)
    as [[K E] | [[K E] | [[K E] | [[K E] | [[K E] |
        [(i & K & Hi & E) | [[K E] | [K E]]]]]]]]; subst cv.
  - rewrite K. now apply verdict_Generic.
  - rewrite K. apply verdict_Bytes.
  - rewrite K. apply verdict_String.
  - rewrite K. apply verdict_Bool.
  - rewrite (asIntType_Kind t _ K). apply verdict_Int64.
  - rewrite (asIntType_Kind t _ K).
    destruct i; try discriminate Hi; now apply (verdict_cast_int a t _ c K).
  - rewrite (asFloatType_Kind t _ K). apply verdict_Float64.
  - rewrite (asFloatType_Kind t _ K). now apply (verdict_cast_float a t _ c K).
Qed.

Lemma built_arg_converter_verdict_witness :
  argVerdict
    (accepts (reflect.Type_Kind (reflect.TFloat reflect.float32))
       (C.vtype (C.mkValue NULL 0 (S754_zero false) [])))
    (callbackArgCast_Run Arch64
       (mkCast callbackArgFloat64 (reflect.TFloat reflect.float32))
       (C.mkValue NULL 0 (S754_zero false) [])).
Proof.
  apply (built_arg_converter_verdict Arch64 (reflect.TFloat reflect.float32)).
  - reflexivity.
  - right. right. right. right. reflexivity.
Defined.

(** ** Values the argument converters produce *)

(** X2.  On an INTEGER cell holding the 64-bit value [v],
    [callbackArgBool] yields a bool that is true exactly when [v] is
    not zero. *)
Theorem callbackArgBool_truth (c : C.sqlite3_value) :
  C.vtype c = INTEGER ->
  int64_range (C.ival c) ->
  exists b,
    callbackArgBool c = Return (ValueOf_bool b, None) /\
    (b = true <-> C.ival c <> 0).
Proof.
  intros Hc Hv. unfold callbackArgBool, C.sqlite3_value_type,
    C.sqlite3_value_int64.
  rewrite Hc. simpl negb. cbv iota. rewrite (to_int64_id _ Hv).
  destruct (C.ival c =? 0) eqn:E; simpl.
  - exists false. split; [reflexivity |].
    apply Z.eqb_eq in E. split; [discriminate | congruence].
  - exists true. split; [reflexivity |].
    apply Z.eqb_neq in E. tauto.
Qed.

Lemma callbackArgBool_truth_witness :
  exists b,
    callbackArgBool (C.mkValue INTEGER (-2) (S754_zero false) []) =
    Return (ValueOf_bool b, None) /\
    (b = true <-> C.ival (C.mkValue INTEGER (-2) (S754_zero false) []) <> 0).
Proof.
  apply (callbackArgBool_truth (C.mkValue INTEGER (-2) (S754_zero false) [])).
  - reflexivity.
  - unfold int64_range. simpl. lia.
Defined.

Lemma wrap_range (a : Arch) (i : reflect.intType) (z : Z) :
  reflect.inRange a i (reflect.wrap a i z) = true.
Proof.
  unfold reflect.inRange, reflect.wrap, reflect.minInt, reflect.maxInt.
  pose proof (bitSize_pos a i) as Hw.
  pose proof (pow2_split _ Hw) as Hs.
  assert (Hh : 0 < 2 ^ (reflect.bitSize a i - 1))
    by (apply Z.pow_pos_nonneg; lia).
  apply andb_true_iff. rewrite !Z.leb_le.
  destruct (reflect.isSigned i).
  - pose proof (Z.mod_pos_bound (z + 2 ^ (reflect.bitSize a i - 1))
                  (2 ^ reflect.bitSize a i)). lia.
  - pose proof (Z.mod_pos_bound z (2 ^ reflect.bitSize a i)). lia.
Qed.

Lemma wrap_congruent (a : Arch) (i : reflect.intType) (z : Z) :
  (reflect.wrap a i z - z) mod 2 ^ reflect.bitSize a i = 0.
Proof.
  unfold reflect.wrap.
  pose proof (bitSize_pos a i) as Hw.
  assert (Hm : 0 < 2 ^ reflect.bitSize a i)
    by (apply Z.pow_pos_nonneg; lia).
  destruct (reflect.isSigned i).
  - pose proof (Z.div_mod (z + 2 ^ (reflect.bitSize a i - 1))
                  (2 ^ reflect.bitSize a i)) as D.
    replace ((z + 2 ^ (reflect.bitSize a i - 1)) mod 2 ^ reflect.bitSize a i
             - 2 ^ (reflect.bitSize a i - 1) - z)
      with (- ((z + 2 ^ (reflect.bitSize a i - 1)) / 2 ^ reflect.bitSize a i)
            * 2 ^ reflect.bitSize a i) by lia.
    apply Z.mod_mul. lia.
  - pose proof (Z.div_mod z (2 ^ reflect.bitSize a i)) as D.
    replace (z mod 2 ^ reflect.bitSize a i - z)
      with (- (z / 2 ^ reflect.bitSize a i) * 2 ^ reflect.bitSize a i)
      by lia.
    apply Z.mod_mul. lia.
Qed.

(** X3.  The value a cast converter yields for an INTEGER cell always
    lies in the range of the declared integer type and differs from
    the cell's value by a multiple of [2^w], [w] the width of that
    type. *)
Theorem cast_result_in_declared_range (a : Arch) (t : reflect.rtype)
  (i : reflect.intType) (c : C.sqlite3_value) :
  reflect.asIntType t = Some i ->
  castType i = true ->
  C.vtype c = INTEGER ->
  int64_range (C.ival c) ->
  exists cv z,
    callbackArg a t = Return (Some cv, None) /\
    cv c = Return (reflect.VInt (reflect.typeName t) i z, None) /\
    reflect.inRange a i z = true /\
    (z - C.ival c) mod 2 ^ reflect.bitSize a i = 0.
Proof.
  intros Ht Hk Hc Hv.
  exists (callbackArgCast_Run a (mkCast callbackArgInt64 t)).
  exists (reflect.wrap a i (C.ival c)).
  split; [| split; [| split]].
  - unfold callbackArg. rewrite (asIntType_Kind t i Ht).
    destruct i; try discriminate Hk; reflexivity.
  - rewrite (cast_Run_int a t i c Ht Hc). now rewrite to_int64_id.
  - apply wrap_range.
  - apply wrap_congruent.
Qed.

Lemma cast_result_in_declared_range_witness :
  exists cv z,
    callbackArg Arch32 (reflect.TNamed "Port" (reflect.TInt reflect.uint16)) =
    Return (Some cv, None) /\
    cv (C.mkValue INTEGER (-1) (S754_zero false) []) =
    Return (reflect.VInt
              (reflect.typeName
                 (reflect.TNamed "Port" (reflect.TInt reflect.uint16)))
              reflect.uint16 z, None) /\
    reflect.inRange Arch32 reflect.uint16 z = true /\
    (z - C.ival (C.mkValue INTEGER (-1) (S754_zero false) []))
      mod 2 ^ reflect.bitSize Arch32 reflect.uint16 = 0.
Proof.
  apply (cast_result_in_declared_range Arch32
           (reflect.TNamed "Port" (reflect.TInt reflect.uint16))
           reflect.uint16
           (C.mkValue INTEGER (-1) (S754_zero false) [])).
  - reflexivity.
  - reflexivity.
  - reflexivity.
  - unfold int64_range. simpl. lia.
Defined.

(** X4.  On a BLOB cell [callbackArgBytes] and [callbackArgString]
    both yield the whole content, zero bytes included: the two carry
    the same bytes. *)
Theorem blob_content_is_kept (c : C.sqlite3_value) :
  C.vtype c = BLOB ->
  callbackArgBytes c = Return (ValueOf_bytes (Some (C.data c)), None) /\
  callbackArgString c = Return (ValueOf_string (C.data c), None).
Proof.
  intros H. split.
  - now apply callbackArgBytes_BLOB.
  - now apply callbackArgString_BLOB.
Qed.

Lemma blob_content_is_kept_witness :
  callbackArgBytes (C.mkValue BLOB 0 (S754_zero false) [x61; x00; x62]) =
  Return (ValueOf_bytes
            (Some (C.data
                     (C.mkValue BLOB 0 (S754_zero false) [x61; x00; x62]))),
          None) /\
  callbackArgString (C.mkValue BLOB 0 (S754_zero false) [x61; x00; x62]) =
  Return (ValueOf_string
            (C.data (C.mkValue BLOB 0 (S754_zero false) [x61; x00; x62])),
          None).
Proof.
  apply (blob_content_is_kept
           (C.mkValue BLOB 0 (S754_zero false) [x61; x00; x62])).
  reflexivity.
Defined.

Lemma GoString_prefix (d : list byte) :
  exists rest, d = C.GoString (d ++ [x00]) ++ rest.
Proof.
  induction d as [| b d [rest IH]].
  - exists []. reflexivity.
  - simpl. destruct (Byte.eqb b x00).
    + exists (b :: d). reflexivity.
    + exists rest. simpl. now rewrite <- IH.
Qed.

(** X5.  On a TEXT cell [callbackArgString] yields a prefix of the
    content that holds no zero byte, and it yields the whole content
    exactly when the content holds no zero byte. *)
Theorem text_string_is_nul_free_prefix (c : C.sqlite3_value) :
  C.vtype c = TEXT ->
  exists s rest,
    callbackArgString c = Return (ValueOf_string s, None) /\
    C.data c = s ++ rest /\
    ~ In x00 s /\
    (rest = [] <-> ~ In x00 (C.data c)).
Proof.
  intros Hc. destruct (GoString_prefix (C.data c)) as [rest Hr].
  exists (C.GoString (C.data c ++ [x00])), rest.
  split; [| split; [| split]].
  - now apply callbackArgString_TEXT.
  - exact Hr.
  - apply GoString_nul_free.
  - split.
    + intros E. subst rest. rewrite app_nil_r in Hr. rewrite Hr.
      apply GoString_nul_free.
    + intros Hn. rewrite (GoString_no_nul _ Hn) in Hr.
      rewrite <- (app_nil_r (C.data c)) in Hr at 1.
      apply app_inv_head in Hr. now symmetry.
Qed.

Lemma text_string_is_nul_free_prefix_witness :
  exists s rest,
    callbackArgString (C.mkValue TEXT 0 (S754_zero false) [x61; x00; x62]) =
    Return (ValueOf_string s, None) /\
    C.data (C.mkValue TEXT 0 (S754_zero false) [x61; x00; x62]) = s ++ rest /\
    ~ In x00 s /\
    (rest = [] <->
     ~ In x00 (C.data (C.mkValue TEXT 0 (S754_zero false) [x61; x00; x62]))).
Proof.
  apply (text_string_is_nul_free_prefix
           (C.mkValue TEXT 0 (S754_zero false) [x61; x00; x62])).
  reflexivity.
Defined.

(** X6.  On a cell of one of the five engine types the generic
    converter never fails, and the Go type of its value is fixed by the
    cell's type: int64, float64, string, and []byte for BLOB and for
    NULL.  On any other type code it panics. *)
Theorem callbackArgGeneric_types (c : C.sqlite3_value) :
  (engineKind c ->
   exists val,
     callbackArgGeneric c = Return (val, None) /\
     reflect.Value_Type val = Return (genericType (C.vtype c))) /\
  (~ engineKind c -> callbackArgGeneric c = Panic "unreachable").
Proof.
  split.
  - intros Hc.
    destruct (generic_by_type c) as (Hi & Hf & Ht & Hb & Hn).
    destruct Hc as [H | [H | [H | [H | H]]]].
    + rewrite (Hi H), (callbackArgInt64_INTEGER c H), H.
      eexists. split; reflexivity.
    + rewrite (Hf H), (callbackArgFloat64_FLOAT c H), H.
      eexists. split; reflexivity.
    + rewrite (Ht H), (callbackArgString_TEXT c H), H.
      eexists. split; reflexivity.
    + rewrite (Hb H), (callbackArgBytes_BLOB c H), H.
      eexists. split; reflexivity.
    + rewrite (Hn H), H. eexists. split; reflexivity.
  - intros Hn. unfold engineKind in Hn.
    unfold callbackArgGeneric, C.sqlite3_value_type.
    destruct (C.vtype c =? INTEGER) eqn:E1;
      [apply Z.eqb_eq in E1; tauto |].
    destruct (C.vtype c =? FLOAT) eqn:E2;
      [apply Z.eqb_eq in E2; tauto |].
    destruct (C.vtype c =? TEXT) eqn:E3;
      [apply Z.eqb_eq in E3; tauto |].
    destruct (C.vtype c =? BLOB) eqn:E4;
      [apply Z.eqb_eq in E4; tauto |].
    destruct (C.vtype c =? NULL) eqn:E5;
      [apply Z.eqb_eq in E5; tauto |].
    reflexivity.
Qed.

Lemma callbackArgGeneric_types_witness :
  (exists val,
      callbackArgGeneric (C.mkValue NULL 0 (S754_zero false) []) =
      Return (val, None) /\
      reflect.Value_Type val =
      Return (genericType (C.vtype (C.mkValue NULL 0 (S754_zero false) []))))
  /\
  callbackArgGeneric (C.mkValue 0 0 (S754_zero false) []) =
  Panic "unreachable".
Proof.
  split.
  - apply (callbackArgGeneric_types (C.mkValue NULL 0 (S754_zero false) [])).
    right. right. right. right. reflexivity.
  - apply (callbackArgGeneric_types (C.mkValue 0 0 (S754_zero false) [])).
    unfold engineKind. simpl.
    intros [H | [H | [H | [H | H]]]]; discriminate H.
Defined.

(** ** Parameter types and return types *)

(** What [callbackRet] builds, by the kind of the declared type. *)
Lemma callbackRet_built (a : Arch) (t : reflect.rtype)
  (conv : callbackRetConverter) :
  callbackRet a t = Return (Some conv, None) ->
  (reflect.Type_Kind t = reflect.Slice /\ conv = callbackRetBlob) \/
  (reflect.Type_Kind t = reflect.String /\ conv = callbackRetText) \/
  (integerFamily (reflect.Type_Kind t) = true /\
   conv = callbackRetInteger a) \/
  (floatFamily (reflect.Type_Kind t) = true /\ conv = callbackRetFloat a).
Proof.
  unfold callbackRet. intros H.
  destruct (reflect.Type_Kind t) eqn:K; try discriminate H;
    try (do 2 right; left; split; [reflexivity | now inversion H]);
    try (do 3 right; split; [reflexivity | now inversion H]).
  - left. destruct (reflect.Type_Elem t) as [e |];
      simpl in H; [| discriminate H].
    destruct (reflect.Type_Kind e); try discriminate H. now inversion H.
  - right. left. now inversion H.
Qed.

(** X7.  Every type [callbackRet] accepts as a return type,
    [callbackArg] accepts as a parameter type; the only parameter
    types that are not return types are the interface types without
    methods. *)
Theorem parameter_types_vs_return_types (a : Arch) (t : reflect.rtype) :
  (exists cv, callbackArg a t = Return (Some cv, None)) <->
  (exists conv, callbackRet a t = Return (Some conv, None)) \/
  (reflect.Type_Kind t = reflect.Interface /\
   reflect.Type_NumMethod t = 0%nat).
Proof.
  unfold callbackArg, callbackRet.
  destruct (reflect.Type_Kind t) eqn:K;
    try (split; [intros _; left; eexists; reflexivity
                | intros _; eexists; reflexivity]);
    try (split; [intros [cv H]; discriminate H
                | intros [[conv H] | [H _]]; discriminate H]).
  - destruct (Nat.eqb (reflect.Type_NumMethod t) 0) eqn:E; simpl.
    + apply Nat.eqb_eq in E. split.
      * intros _. right. now split.
      * intros _. eexists. reflexivity.
    + apply Nat.eqb_neq in E. split.
      * intros [cv H]. discriminate H.
      * intros [[conv H] | [_ H]]; [discriminate H | contradiction].
  - destruct (reflect.Type_Elem t) as [e | why]; simpl.
    + destruct (reflect.Type_Kind e);
        try (split; [intros [cv H]; discriminate H
                    | intros [[conv H] | [H _]]; discriminate H]).
      split; [intros _; left; eexists; reflexivity
             | intros _; eexists; reflexivity].
    + split; [intros [cv H]; discriminate H
             | intros [[conv H] | [H _]]; discriminate H].
Qed.

Lemma parameter_types_vs_return_types_witness :
  (exists cv,
      callbackArg Arch64 (reflect.TNamed "any" (reflect.TInterface [])) =
      Return (Some cv, None)) /\
  (exists cv,
      callbackArg Arch64 (reflect.TSlice (reflect.TInt reflect.uint8)) =
      Return (Some cv, None)).
Proof.
  split.
  - apply (proj2 (parameter_types_vs_return_types Arch64
                    (reflect.TNamed "any" (reflect.TInterface [])))).
    right. split; reflexivity.
  - apply (proj2 (parameter_types_vs_return_types Arch64
                    (reflect.TSlice (reflect.TInt reflect.uint8)))).
    left. eexists. reflexivity.
Defined.

(** ** What the return converters write *)

(** X8.  [callbackRetInteger] writes 1 or 0 for a bool, [z] for an
    int64 [z], and for an integer of any other width its value read as
    a signed 64-bit integer, which is the value itself below [2^63];
    for a value of a kind outside bool and the integer kinds it
    returns MISUSE "cannot convert X to INTEGER" and writes nothing. *)
Theorem callbackRetInteger_writes (a : Arch) (ctx : C.sqlite3_context) :
  (forall b,
      callbackRetInteger a ctx (ValueOf_bool b) =
      (ctx ++ [C.result_int64 (if b then 1 else 0)], Return None)) /\
  (forall z,
      int64_range z ->
      callbackRetInteger a ctx (ValueOf_int64 z) =
      (ctx ++ [C.result_int64 z], Return None)) /\
  (forall n i z,
      castType i = true ->
      reflect.inRange a i z = true ->
      callbackRetInteger a ctx (reflect.VInt n i z) =
      (ctx ++ [C.result_int64 (to_int64 z)], Return None) /\
      (z < 2 ^ 63 -> to_int64 z = z)) /\
  (forall v t,
      reflect.Value_Type v = Return t ->
      integerFamily (reflect.Type_Kind t) = false ->
      callbackRetInteger a ctx v =
      (ctx,
       Return (Some (pkgErr MISUSE "cannot convert %s to INTEGER" [t])))).
Proof.
  split; [| split; [| split]].
  - apply callbackRetInteger_bool.
  - intros z Hz. rewrite callbackRetInteger_int64.
    now rewrite to_int64_id.
  - intros n i z Hi Hr. split.
    + now apply callbackRetInteger_cast.
    + intros Hlt. apply to_int64_id. unfold int64_range.
      unfold reflect.inRange, reflect.minInt in Hr.
      apply andb_true_iff in Hr. destruct Hr as [Hlo _].
      apply Z.leb_le in Hlo.
      destruct a, i; try discriminate Hi; simpl in Hlo; lia.
  - intros v t Ht Hk. apply callbackRetInteger_other; [exact Ht |].
    destruct (reflect.Type_Kind t); try discriminate Hk; exact I.
Qed.

Lemma callbackRetInteger_writes_witness :
  callbackRetInteger Arch64 [] (ValueOf_int64 (-9)) =
  ([] ++ [C.result_int64 (-9)], Return None) /\
  (callbackRetInteger Arch64 []
     (reflect.VInt (Some "Port") reflect.uint16 8080) =
   ([] ++ [C.result_int64 (to_int64 8080)], Return None) /\
   (8080 < 2 ^ 63 -> to_int64 8080 = 8080)) /\
  callbackRetInteger Arch64 [] (reflect.VOpaque (reflect.TStruct ["x"])) =
  ([],
   Return (Some (pkgErr MISUSE "cannot convert %s to INTEGER"
                   [reflect.TStruct ["x"]]))).
Proof.
  split; [| split].
  - apply (proj1 (proj2 (callbackRetInteger_writes Arch64 []))).
    unfold int64_range. simpl. lia.
  - apply (proj1 (proj2 (proj2 (callbackRetInteger_writes Arch64 []))));
      reflexivity.
  - apply (proj2 (proj2 (proj2 (callbackRetInteger_writes Arch64 []))));
      reflexivity.
Defined.

Lemma to_C_int_small (z : Z) : 0 <= z < 2 ^ 31 -> to_C_int z = z.
Proof.
  intros H. apply wrap_inRange.
  unfold reflect.inRange, reflect.minInt, reflect.maxInt. simpl.
  apply andb_true_iff. rewrite !Z.leb_le. simpl in H. lia.
Qed.

(** X9.  [callbackRetBlob] on a []byte: an empty or nil slice makes
    the result NULL; a slice of [n > 0] bytes (with [n] below [2^31])
    is handed to the copying blob primitive with its bytes and the
    length [n].  A value that is not of a byte slice kind gets MISUSE
    "cannot convert X to BLOB" and nothing is written. *)
Theorem callbackRetBlob_writes (ctx : C.sqlite3_context) :
  (forall s,
      len s = 0 ->
      callbackRetBlob ctx (ValueOf_bytes s) =
      (ctx ++ [C.result_null], Return None)) /\
  (forall l,
      l <> [] ->
      Z.of_nat (List.length l) < 2 ^ 31 ->
      callbackRetBlob ctx (ValueOf_bytes (Some l)) =
      (ctx ++ [C.result_blob l (Z.of_nat (List.length l))], Return None)) /\
  (forall v t,
      reflect.Value_Type v = Return t ->
      notByteSlice t = Return true ->
      callbackRetBlob ctx v =
      (ctx, Return (Some (pkgErr MISUSE "cannot convert %s to BLOB" [t])))).
Proof.
  split; [| split].
  - apply callbackRetBlob_empty.
  - intros l Hl Hn. destruct l as [| b l]; [contradiction |].
    rewrite callbackRetBlob_bytes. unfold len.
    rewrite to_C_int_small; [reflexivity |]. lia.
  - apply callbackRetBlob_other.
Qed.

Lemma callbackRetBlob_writes_witness :
  callbackRetBlob [] (ValueOf_bytes (Some [])) =
  ([] ++ [C.result_null], Return None) /\
  callbackRetBlob [] (ValueOf_bytes (Some [x01; x00])) =
  ([] ++ [C.result_blob [x01; x00] (Z.of_nat (List.length [x01; x00]))],
   Return None) /\
  callbackRetBlob [] (ValueOf_string [x01]) =
  ([], Return (Some (pkgErr MISUSE "cannot convert %s to BLOB"
                       [reflect.TString]))).
Proof.
  split; [| split].
  - apply (proj1 (callbackRetBlob_writes [])). reflexivity.
  - apply (proj1 (proj2 (callbackRetBlob_writes [])));
      [discriminate | simpl; lia].
  - apply (proj2 (proj2 (callbackRetBlob_writes []))); reflexivity.
Defined.

(** X10.  [callbackRetFloat] writes a float64 unchanged, and a float32
    (of a predeclared or a defined type) with the same value, the
    widening being exact; for a value of a kind other than the float
    kinds it returns MISUSE "cannot convert X to FLOAT" and writes
    nothing. *)
Theorem callbackRetFloat_writes (a : Arch) (ctx : C.sqlite3_context) :
  (forall x,
      callbackRetFloat a ctx (ValueOf_float64 x) =
      (ctx ++ [C.result_double x], Return None)) /\
  (forall n x,
      callbackRetFloat a ctx (reflect.VFloat n reflect.float32 x) =
      (ctx ++ [C.result_double x], Return None)) /\
  (forall v t,
      reflect.Value_Type v = Return t ->
      floatFamily (reflect.Type_Kind t) = false ->
      callbackRetFloat a ctx v =
      (ctx, Return (Some (pkgErr MISUSE "cannot convert %s to FLOAT" [t])))).
Proof.
  split; [| split].
  - reflexivity.
  - intros n x. unfold callbackRetFloat. simpl reflect.Value_Type.
    cbn [bind]. rewrite Kind_withName. reflexivity.
  - intros v t Ht Hk. unfold callbackRetFloat. rewrite Ht. cbn [bind].
    destruct (reflect.Type_Kind t); try discriminate Hk; reflexivity.
Qed.

Lemma callbackRetFloat_writes_witness :
  callbackRetFloat Arch64 [] (ValueOf_int64 1) =
  ([], Return (Some (pkgErr MISUSE "cannot convert %s to FLOAT"
                       [reflect.TInt reflect.int64]))).
Proof.
  apply (proj2 (proj2 (callbackRetFloat_writes Arch64 []))); reflexivity.
Defined.

(** X11.  Every converter [callbackRet] builds invokes at most one
    result primitive per call: exactly one, and not the error
    primitive, when it returns no error; none when it returns an
    error, after which [callbackError] writes that error exactly once;
    none when it panics. *)
Theorem built_ret_converter_writes_once (a : Arch) (t : reflect.rtype)
  (conv : callbackRetConverter) (ctx : C.sqlite3_context)
  (v : reflect.Value) :
  callbackRet a t = Return (Some conv, None) ->
  match conv ctx v with
  | (ctx', Return None) =>
      exists w, ctx' = ctx ++ [w] /\ isErrorResult w = false
  | (ctx', Return (Some e)) =>
      ctx' = ctx /\
      callbackError ctx' (Some e) = (ctx ++ [C.result_error e], Return tt)
  | (ctx', Panic _) => ctx' = ctx
  end.
Proof.
  intros H.
  assert (Hs : retShape conv).
  { destruct (callbackRet_built a t conv H)
      as [[_ E] | [[_ E] | [[_ E] | [_ E]]]]; subst conv.
    - apply callbackRetBlob_shape.
    - apply callbackRetText_shape.
    - apply callbackRetInteger_shape.
    - apply callbackRetFloat_shape. }
  specialize (Hs ctx v).
  destruct (conv ctx v) as [ctx' [[e |] | why]]; try exact Hs.
  subst ctx'. split; reflexivity.
Qed.

Lemma built_ret_converter_writes_once_witness :
  match callbackRetText [] (ValueOf_int64 1) with
  | (ctx', Return None) =>
      exists w, ctx' = [] ++ [w] /\ isErrorResult w = false
  | (ctx', Return (Some e)) =>
      ctx' = [] /\
      callbackError ctx' (Some e) = ([] ++ [C.result_error e], Return tt)
  | (ctx', Panic _) => ctx' = []
  end.
Proof.
  apply (built_ret_converter_writes_once Arch64 reflect.TString
           callbackRetText [] (ValueOf_int64 1)).
  reflexivity.
Defined.

(** ** A value passed in and handed back *)

Lemma to_int64_mod (z : Z) : to_int64 (z mod 2 ^ 64) = to_int64 z.
Proof.
  unfold to_int64, reflect.wrap. simpl reflect.isSigned. cbv iota zeta.
  change (reflect.bitSize Arch64 reflect.int64) with 64.
  now rewrite Z.add_mod_idemp_l by lia.
Qed.

Lemma wrap_full_width (a : Arch) (i : reflect.intType) (z : Z) :
  reflect.bitSize a i = 64 ->
  to_int64 (reflect.wrap a i z) = to_int64 z.
Proof.
  intros H. unfold reflect.wrap. rewrite H. cbv zeta.
  destruct (reflect.isSigned i).
  - apply to_int64_idem.
  - apply to_int64_mod.
Qed.

Lemma narrow_in_int64 (a : Arch) (i : reflect.intType) (z : Z) :
  reflect.bitSize a i < 64 ->
  reflect.inRange a i z = true ->
  int64_range z.
Proof.
  unfold reflect.inRange, reflect.minInt, reflect.maxInt, int64_range.
  intros Hw H. apply andb_true_iff in H. rewrite !Z.leb_le in H.
  destruct a, i; simpl in *; lia.
Qed.

Lemma bitSize_cases (a : Arch) (i : reflect.intType) :
  reflect.bitSize a i = 64 \/ reflect.bitSize a i < 64.
Proof. destruct a, i; simpl; lia. Qed.

(** X12.  An INTEGER cell holding the 64-bit value [v], converted for
    a parameter of an integer type [t] of a kind other than Int64 and
    written back by the return converter for the same type [t]: the
    engine receives [v] exactly when [t] is 64 bits wide or [v] is in
    the range of [t]; otherwise it receives another value. *)
Theorem integer_round_trip (a : Arch) (t : reflect.rtype)
  (i : reflect.intType) (c : C.sqlite3_value) (ctx : C.sqlite3_context) :
  reflect.asIntType t = Some i ->
  castType i = true ->
  C.vtype c = INTEGER ->
  int64_range (C.ival c) ->
  exists cv conv val r,
    callbackArg a t = Return (Some cv, None) /\
    callbackRet a t = Return (Some conv, None) /\
    cv c = Return (val, None) /\
    conv ctx val = (ctx ++ [C.result_int64 r], Return None) /\
    (r = C.ival c <->
     reflect.bitSize a i = 64 \/ reflect.inRange a i (C.ival c) = true).
Proof.
  intros Ht Hk Hc Hv.
  exists (callbackArgCast_Run a (mkCast callbackArgInt64 t)).
  exists (callbackRetInteger a).
  exists (reflect.VInt (reflect.typeName t) i (reflect.wrap a i (C.ival c))).
  exists (to_int64 (reflect.wrap a i (C.ival c))).
  split; [| split; [| split; [| split]]].
  - unfold callbackArg. rewrite (asIntType_Kind t i Ht).
    destruct i; try discriminate Hk; reflexivity.
  - unfold callbackRet. rewrite (asIntType_Kind t i Ht).
    destruct i; try discriminate Hk; reflexivity.
  - rewrite (cast_Run_int a t i c Ht Hc). now rewrite to_int64_id.
  - now apply callbackRetInteger_cast.
  - split.
    + intros E. destruct (bitSize_cases a i) as [Hw | Hw]; [now left |].
      right. rewrite <- E.
      assert (Hn : to_int64 (reflect.wrap a i (C.ival c)) =
                   reflect.wrap a i (C.ival c)).
      { apply to_int64_id. apply (narrow_in_int64 a i _ Hw).
        apply wrap_range. }
      rewrite Hn. apply wrap_range.
    + intros [Hw | Hin].
      * rewrite (wrap_full_width a i _ Hw). now apply to_int64_id.
      * rewrite (wrap_inRange a i _ Hin). now apply to_int64_id.
Qed.

Lemma integer_round_trip_witness :
  exists cv conv val r,
    callbackArg Arch64 (reflect.TInt reflect.uint64) =
    Return (Some cv, None) /\
    callbackRet Arch64 (reflect.TInt reflect.uint64) =
    Return (Some conv, None) /\
    cv (C.mkValue INTEGER (-1) (S754_zero false) []) = Return (val, None) /\
    conv [] val = ([] ++ [C.result_int64 r], Return None) /\
    (r = C.ival (C.mkValue INTEGER (-1) (S754_zero false) []) <->
     reflect.bitSize Arch64 reflect.uint64 = 64 \/
     reflect.inRange Arch64 reflect.uint64
       (C.ival (C.mkValue INTEGER (-1) (S754_zero false) [])) = true).
Proof.
  apply (integer_round_trip Arch64 (reflect.TInt reflect.uint64)
           reflect.uint64 (C.mkValue INTEGER (-1) (S754_zero false) []) []).
  - reflexivity.
  - reflexivity.
  - reflexivity.
  - unfold int64_range. simpl. lia.
Defined.

(** X13.  A BLOB or TEXT cell received as a []byte and handed back as
    a []byte: an empty content comes back as NULL, a content of [n > 0]
    bytes (with [n] below [2^31]) as a blob of those bytes.  A NULL
    cell received by the generic converter and handed back as a []byte
    comes back as NULL. *)
Theorem bytes_round_trip (c : C.sqlite3_value) (ctx : C.sqlite3_context) :
  (C.vtype c = BLOB \/ C.vtype c = TEXT ->
   exists val,
     callbackArgBytes c = Return (val, None) /\
     (C.data c = [] ->
      callbackRetBlob ctx val = (ctx ++ [C.result_null], Return None)) /\
     (C.data c <> [] ->
      Z.of_nat (List.length (C.data c)) < 2 ^ 31 ->
      callbackRetBlob ctx val =
      (ctx ++ [C.result_blob (C.data c) (Z.of_nat (List.length (C.data c)))],
       Return None))) /\
  (C.vtype c = NULL ->
   exists val,
     callbackArgGeneric c = Return (val, None) /\
     callbackRetBlob ctx val = (ctx ++ [C.result_null], Return None)).
Proof.
  split.
  - intros Hc. exists (ValueOf_bytes (Some (C.data c))).
    split; [| split].
    + destruct Hc as [H | H];
        [now apply callbackArgBytes_BLOB | now apply callbackArgBytes_TEXT].
    + intros E. rewrite E. now apply callbackRetBlob_empty.
    + intros Hne Hn. destruct (C.data c) as [| b l]; [contradiction |].
      rewrite callbackRetBlob_bytes. unfold len.
      rewrite to_C_int_small; [reflexivity | lia].
  - intros Hc. exists (ValueOf_bytes None). split.
    + now apply (generic_by_type c).
    + now apply callbackRetBlob_empty.
Qed.

Lemma bytes_round_trip_witness :
  (exists val,
      callbackArgBytes (C.mkValue TEXT 0 (S754_zero false) []) =
      Return (val, None) /\
      (C.data (C.mkValue TEXT 0 (S754_zero false) []) = [] ->
       callbackRetBlob [] val = ([] ++ [C.result_null], Return None)) /\
      (C.data (C.mkValue TEXT 0 (S754_zero false) []) <> [] ->
       Z.of_nat (List.length (C.data (C.mkValue TEXT 0 (S754_zero false) [])))
       < 2 ^ 31 ->
       callbackRetBlob [] val =
       ([] ++ [C.result_blob (C.data (C.mkValue TEXT 0 (S754_zero false) []))
                 (Z.of_nat
                    (List.length
                       (C.data (C.mkValue TEXT 0 (S754_zero false) []))))],
        Return None))) /\
  (exists val,
      callbackArgGeneric (C.mkValue NULL 0 (S754_zero false) []) =
      Return (val, None) /\
      callbackRetBlob [] val = ([] ++ [C.result_null], Return None)).
Proof.
  split.
  - apply (proj1 (bytes_round_trip
                    (C.mkValue TEXT 0 (S754_zero false) []) [])).
    right. reflexivity.
  - apply (proj2 (bytes_round_trip
                    (C.mkValue NULL 0 (S754_zero false) []) [])).
    reflexivity.
Defined.

(** X14.  A FLOAT cell received as a float64 and handed back is
    written unchanged; received as a float32 (a parameter of kind
    Float32) and handed back, it is written rounded to binary32. *)
Theorem float_round_trip (a : Arch) (t : reflect.rtype)
  (c : C.sqlite3_value) (ctx : C.sqlite3_context) :
  C.vtype c = FLOAT ->
  (exists val,
      callbackArgFloat64 c = Return (val, None) /\
      callbackRetFloat a ctx val =
      (ctx ++ [C.result_double (C.rval c)], Return None)) /\
  (reflect.asFloatType t = Some reflect.float32 ->
   exists cv conv val,
     callbackArg a t = Return (Some cv, None) /\
     callbackRet a t = Return (Some conv, None) /\
     cv c = Return (val, None) /\
     conv ctx val =
     (ctx ++ [C.result_double (reflect.roundTo reflect.float32 (C.rval c))],
      Return None)).
Proof.
  intros Hc. split.
  - exists (ValueOf_float64 (C.rval c)). split.
    + now apply callbackArgFloat64_FLOAT.
    + reflexivity.
  - intros Ht.
    exists (callbackArgCast_Run a (mkCast callbackArgFloat64 t)).
    exists (callbackRetFloat a).
    exists (reflect.VFloat (reflect.typeName t) reflect.float32
              (reflect.roundTo reflect.float32 (C.rval c))).
    split; [| split; [| split]].
    + unfold callbackArg. now rewrite (asFloatType_Kind t _ Ht).
    + unfold callbackRet. now rewrite (asFloatType_Kind t _ Ht).
    + apply (cast_Run_float a t _ c Ht (asFloat_not_asInt t _ Ht) Hc).
    + unfold callbackRetFloat. simpl reflect.Value_Type. cbn [bind].
      rewrite Kind_withName. reflexivity.
Qed.

Lemma float_round_trip_witness :
  (exists val,
      callbackArgFloat64 (C.mkValue FLOAT 0 (S754_finite false 3 (-1)) []) =
      Return (val, None) /\
      callbackRetFloat Arch64 [] val =
      ([] ++ [C.result_double
                (C.rval (C.mkValue FLOAT 0 (S754_finite false 3 (-1)) []))],
       Return None)) /\
  (exists cv conv val,
      callbackArg Arch64 (reflect.TFloat reflect.float32) =
      Return (Some cv, None) /\
      callbackRet Arch64 (reflect.TFloat reflect.float32) =
      Return (Some conv, None) /\
      cv (C.mkValue FLOAT 0 (S754_finite false 3 (-1)) []) =
      Return (val, None) /\
      conv [] val =
      ([] ++ [C.result_double
                (reflect.roundTo reflect.float32
                   (C.rval
                      (C.mkValue FLOAT 0 (S754_finite false 3 (-1)) [])))],
       Return None)).
Proof.
  split.
  - apply (proj1 (float_round_trip Arch64 (reflect.TFloat reflect.float32)
                    (C.mkValue FLOAT 0 (S754_finite false 3 (-1)) []) []
                    eq_refl)).
  - apply (proj2 (float_round_trip Arch64 (reflect.TFloat reflect.float32)
                    (C.mkValue FLOAT 0 (S754_finite false 3 (-1)) []) []
                    eq_refl)).
    reflexivity.
Defined.

(** X15.  An INTEGER cell holding the 64-bit value [v], received as a
    bool and handed back as a bool, is written as 0 when [v] is 0 and
    as 1 otherwise. *)
Theorem bool_round_trip (a : Arch) (c : C.sqlite3_value)
  (ctx : C.sqlite3_context) :
  C.vtype c = INTEGER ->
  int64_range (C.ival c) ->
  exists val,
    callbackArgBool c = Return (val, None) /\
    callbackRetInteger a ctx val =
    (ctx ++ [C.result_int64 (if C.ival c =? 0 then 0 else 1)], Return None).
Proof.
  intros Hc Hv. unfold callbackArgBool, C.sqlite3_value_type,
    C.sqlite3_value_int64.
  rewrite Hc. simpl negb. cbv iota. rewrite (to_int64_id _ Hv).
  destruct (C.ival c =? 0); simpl negb; cbv iota;
    eexists; split; reflexivity.
Qed.

Lemma bool_round_trip_witness :
  exists val,
    callbackArgBool (C.mkValue INTEGER 42 (S754_zero false) []) =
    Return (val, None) /\
    callbackRetInteger Arch64 [] val =
    ([] ++ [C.result_int64
              (if C.ival (C.mkValue INTEGER 42 (S754_zero false) []) =? 0
               then 0 else 1)],
     Return None).
Proof.
  apply (bool_round_trip Arch64
           (C.mkValue INTEGER 42 (S754_zero false) []) []).
  - reflexivity.
  - unfold int64_range. simpl. lia.
Defined.

(** ** Errors *)

Lemma arg_primitive_error_format (c : C.sqlite3_value)
  (val : reflect.Value) (e : Error) :
  callbackArgInt64 c = Return (val, Some e) \/
  callbackArgBool c = Return (val, Some e) \/
  callbackArgFloat64 c = Return (val, Some e) \/
  callbackArgBytes c = Return (val, Some e) \/
  callbackArgString c = Return (val, Some e) ->
  err_format e <> "cannot convert %s to %s".
Proof.
  unfold callbackArgInt64, callbackArgBool, callbackArgFloat64,
    callbackArgBytes, callbackArgString.
  intros [H | [H | [H | [H | H]]]]; revert H;
    repeat (case_scrutinee; cbn); intros H; inversion H; discriminate.
Qed.

(** X16.  No converter built by [callbackArg] ever returns the error
    "cannot convert X to Y" of the cast wrapper: the types it pairs
    are always convertible, so a cast converter fails only with the
    error of the converter it wraps. *)
Theorem cast_error_is_never_returned (a : Arch) (t : reflect.rtype)
  (cv : callbackArgConverter) (c : C.sqlite3_value)
  (val : reflect.Value) (e : Error) :
  callbackArg a t = Return (Some cv, None) ->
  cv c = Return (val, Some e) ->
  err_format e <> "cannot convert %s to %s".
Proof.
  intros H Hr.
  destruct (callbackArg_built a t cv H)
    as [[K E] | [[K E] | [[K E] | [[K E] | [[K E] |
        [(i & K & Hi & E) | [[K E] | [K E]]]]]]]]; subst cv.
  - unfold callbackArgGeneric in Hr. revert Hr.
    repeat (case_scrutinee; cbn); intros Hr; try discriminate Hr;
      apply (arg_primitive_error_format c val e); tauto.
  - apply (arg_primitive_error_format c val e). tauto.
  - apply (arg_primitive_error_format c val e). tauto.
  - apply (arg_primitive_error_format c val e). tauto.
  - apply (arg_primitive_error_format c val e). tauto.
  - destruct (C.vtype c =? INTEGER) eqn:Ec.
    + apply Z.eqb_eq in Ec. rewrite (cast_Run_int a t i c K Ec) in Hr.
      discriminate Hr.
    + apply Z.eqb_neq in Ec.
      rewrite (cast_Run_error a (mkCast callbackArgInt64 t) c _ _
                 (callbackArgInt64_other c Ec)) in Hr.
      inversion Hr. discriminate.
  - apply (arg_primitive_error_format c val e). tauto.
  - destruct (C.vtype c =? FLOAT) eqn:Ec.
    + apply Z.eqb_eq in Ec.
      rewrite (cast_Run_float a t _ c K (asFloat_not_asInt t _ K) Ec) in Hr.
      discriminate Hr.
    + apply Z.eqb_neq in Ec.
      rewrite (cast_Run_error a (mkCast callbackArgFloat64 t) c _ _
                 (callbackArgFloat64_other c Ec)) in Hr.
      inversion Hr. discriminate.
Qed.

Lemma cast_error_is_never_returned_witness :
  err_format (pkgErr MISUSE "argument must be an INTEGER" []) <>
  "cannot convert %s to %s".
Proof.
  apply (cast_error_is_never_returned Arch64 (reflect.TInt reflect.int8)
           (callbackArgCast_Run Arch64
              (mkCast callbackArgInt64 (reflect.TInt reflect.int8)))
           (C.mkValue TEXT 0 (S754_zero false) [x31])
           reflect.VInvalid).
  - reflexivity.
  - reflexivity.
Defined.

(** X17.  An error returned by a converter [callbackRet] builds has
    the code MISUSE and names, as its only argument, the dynamic type
    of the value that was to be converted. *)
Theorem ret_error_names_dynamic_type (a : Arch) (t : reflect.rtype)
  (conv : callbackRetConverter) (ctx ctx' : C.sqlite3_context)
  (v : reflect.Value) (e : Error) :
  callbackRet a t = Return (Some conv, None) ->
  conv ctx v = (ctx', Return (Some e)) ->
  err_rc e = MISUSE /\
  exists vt, reflect.Value_Type v = Return vt /\ err_args e = [vt].
Proof.
  intros H Hr.
  destruct (callbackRet_built a t conv H)
    as [[_ E] | [[_ E] | [[_ E] | [_ E]]]]; subst conv; revert Hr.
  - unfold callbackRetBlob, notByteSlice, bind.
    destruct (reflect.Value_Type v) as [vt |]; cbn;
      repeat (case_scrutinee; cbn); intros Hr; inversion Hr;
      (split; [reflexivity | eexists; split; reflexivity]).
  - unfold callbackRetText, bind.
    destruct (reflect.Value_Type v) as [vt |]; cbn;
      repeat (case_scrutinee; cbn); intros Hr; inversion Hr;
      (split; [reflexivity | eexists; split; reflexivity]).
  - unfold callbackRetInteger, bind.
    destruct (reflect.Value_Type v) as [vt |]; cbn;
      repeat (case_scrutinee; cbn); intros Hr; inversion Hr;
      (split; [reflexivity | eexists; split; reflexivity]).
  - unfold callbackRetFloat, bind.
    destruct (reflect.Value_Type v) as [vt |]; cbn;
      repeat (case_scrutinee; cbn); intros Hr; inversion Hr;
      (split; [reflexivity | eexists; split; reflexivity]).
Qed.

Lemma ret_error_names_dynamic_type_witness :
  err_rc (pkgErr MISUSE "cannot convert %s to TEXT"
            [reflect.TInt reflect.int64]) = MISUSE /\
  exists vt,
    reflect.Value_Type (ValueOf_int64 1) = Return vt /\
    err_args (pkgErr MISUSE "cannot convert %s to TEXT"
                [reflect.TInt reflect.int64]) = [vt].
Proof.
  apply (ret_error_names_dynamic_type Arch64 reflect.TString
           callbackRetText [] [] (ValueOf_int64 1)).
  - reflexivity.
  - reflexivity.
Defined.
